(** * CarSeer: the prediction form and the depreciation chart

    A shallow embedding of the two React components of the frontend,
    [CarPredictionForm] and [PredictionChart], and the properties of the
    dependent-field cascade, the catalog normalisation, the year list, the
    failure paths and the ten-year projection.

    Conventions of the embedding:
    - a JavaScript string is a [string] whose characters are code units;
      case mapping and white space are those of the ASCII range;
    - a JavaScript number holding a price or a multiplier is an exact
      rational [Q] (the "decimal" of the data model), so the rounding of
      doubles is not part of the model; where a statement turns on that
      rounding, the module [Double] computes the predicted value on the
      doubles themselves; a year is a [Z];
    - the form object, which the change handler updates through a computed
      key, is a finite map from property names to values;
    - [new Date().getFullYear()] is the parameter [currentYear] and
      [localeCompare] is the parameter of that name;
    - a network call is an event of the monad of asynchronous functions,
      answered by the environment with a resolved or a rejected promise;
      a state setter takes effect at once, and logging to the console is
      left out;
    - reading a property of [undefined] is a [TypeError] result in the
      chart and a thrown completion in the form.

    The form is the copy of the component that keeps the year of the form
    object as a number; the other copy keeps its decimal text and is the
    same in everything else that is modelled here. *)

From Stdlib Require Import QArith Qabs Qround Qpower Sorted.
From Stdlib Require Import Ascii String DecimalString DecimalPos DecimalN.
From Stdlib Require Floats.
From stdpp Require Import gmap strings list.

Open Scope string_scope.
Open Scope Z_scope.

(** ** The JavaScript primitives the components call *)

Module JS.

(** *** Strings *)

Definition is_upper (c : ascii) : bool :=
  let n := nat_of_ascii c in (65 <=? n)%nat && (n <=? 90)%nat.

Definition is_lower (c : ascii) : bool :=
  let n := nat_of_ascii c in (97 <=? n)%nat && (n <=? 122)%nat.

Definition lower_char (c : ascii) : ascii :=
  if is_upper c then ascii_of_nat (nat_of_ascii c + 32) else c.

Definition upper_char (c : ascii) : ascii :=
  if is_lower c then ascii_of_nat (nat_of_ascii c - 32) else c.

Fixpoint toLowerCase (s : string) : string :=
  match s with
  | EmptyString => EmptyString
  | String c r => String (lower_char c) (toLowerCase r)
  end.

Fixpoint toUpperCase (s : string) : string :=
  match s with
  | EmptyString => EmptyString
  | String c r => String (upper_char c) (toUpperCase r)
  end.

(** White space of [String.prototype.trim]: TAB, LF, VT, FF, CR, SP. *)
Definition is_space (c : ascii) : bool :=
  let n := nat_of_ascii c in
  ((9 <=? n)%nat && (n <=? 13)%nat) || (n =? 32)%nat.

Fixpoint trimStart (s : string) : string :=
  match s with
  | EmptyString => EmptyString
  | String c r => if is_space c then trimStart r else s
  end.

(** [trimEnd] keeps a character when it is not a space or when something
    survives to its right. *)
Fixpoint trimEnd (s : string) : string :=
  match s with
  | EmptyString => EmptyString
  | String c r =>
      match trimEnd r with
      | EmptyString => if is_space c then EmptyString else String c EmptyString
      | r' => String c r'
      end
  end.

Definition trim (s : string) : string := trimEnd (trimStart s).

(** [s.startsWith(p)] *)
Definition startsWith (s p : string) : bool := String.prefix p s.

(** [s.substring(n)] for [0 <= n]: the code units from index [n] on. *)
Fixpoint substring (n : nat) (s : string) : string :=
  match n, s with
  | O, _ => s
  | S n', EmptyString => EmptyString
  | S n', String _ r => substring n' r
  end.

(** [s.charAt(0)] and [s.slice(1)] *)
Definition charAt0 (s : string) : string :=
  match s with
  | EmptyString => EmptyString
  | String c _ => String c EmptyString
  end.

Definition slice1 (s : string) : string := substring 1 s.

(** Truthiness of a string: every string but the empty one. *)
Definition truthy_string (s : string) : bool :=
  match s with EmptyString => false | _ => true end.

(** *** Arrays *)

(** [Array.from({ length: n }, (_, i) => f i)] *)
Definition Array_from {A} (n : nat) (f : nat -> A) : list A :=
  List.map f (seq 0 n).

(** [Array.prototype.sort] is a stable sort, here by insertion: an element
    goes before the first element it does not compare greater than, so
    that elements that compare equal keep their order. *)
Fixpoint sort_insert {A} (cmp : A -> A -> Z) (x : A) (l : list A) : list A :=
  match l with
  | [] => [x]
  | y :: r => if cmp x y <=? 0 then x :: y :: r else y :: sort_insert cmp x r
  end.

Fixpoint Array_sort {A} (cmp : A -> A -> Z) (l : list A) : list A :=
  match l with
  | [] => []
  | x :: r => sort_insert cmp x (Array_sort cmp r)
  end.

(** The comparison of two strings code unit by code unit, the collation
    of [localeCompare] for plain unaccented lower-case names. *)
Definition codeUnitCompare (a b : string) : Z :=
  match String.compare a b with
  | Lt => -1
  | Eq => 0
  | Gt => 1
  end.

(** *** Numbers *)

(** Truthiness of a number: every number but zero. *)
Definition truthy_number (q : Q) : bool := negb (Qeq_bool q 0).

(** [Math.pow(b, k)] at an array index [k]. *)
Definition Math_pow (b : Q) (k : nat) : Q := Qpower b (Z.of_nat k).

(** Decimal digits of a natural number. *)
Definition digits (n : Z) : string :=
  NilZero.string_of_uint (N.to_uint (Z.to_N n)).

(** Rounding of a non-negative rational to the nearest integer, a tie
    going to the larger one. *)
Definition round_half_up (q : Q) : Z := Qfloor (q + (1 # 2))%Q.

Definition Qneg (q : Q) : bool :=
  match Qcompare q 0 with Lt => true | _ => false end.

(** [x.toFixed(1)], below the magnitude where JavaScript switches to the
    exponent notation. *)
Definition toFixed1 (x : Q) : string :=
  let n := round_half_up (Qabs x * 10)%Q in
  (if Qneg x then "-" else "") ++ digits (n / 10) ++ "." ++ digits (n mod 10).

(** The digit groups of the en-US locale: a comma before every group of
    three digits counted from the right. *)
Fixpoint group_rev (l : list ascii) (i : nat) : list ascii :=
  match l with
  | [] => []
  | c :: r =>
      match i, r with
      | 2%nat, _ :: _ => c :: ","%char :: group_rev r 0
      | _, _ => c :: group_rev r (S i)
      end
  end.

Definition group3 (s : string) : string :=
  string_of_list_ascii (rev (group_rev (rev (list_ascii_of_string s)) 0)).

(** [new Intl.NumberFormat('en-US', { style: 'currency', currency: 'USD',
    minimumFractionDigits: 0, maximumFractionDigits: 0 }).format(x)] *)
Definition Intl_format_USD0 (x : Q) : string :=
  (if Qneg x then "-" else "") ++ "$" ++ group3 (digits (round_half_up (Qabs x))).

End JS.

(** ** PredictionChart.tsx *)

Module Chart.
Import JS.

Record PriceRange := { low : Q; high : Q }.

Record Factors := {
  base_value : Q;
  trim_multiplier : Q;
  condition_multiplier : Q;
  mileage_multiplier : Q
}.

(** [interface PredictionData]; an optional property is an [option].
    The component never reads the property [year] of the data, which is
    [data_year] here. *)
Record PredictionData := {
  predicted_value : Q;
  mean_value : option Q;
  price_range : option PriceRange;
  category : option string;
  factors : option Factors;
  confidence : option string;
  data_year : Z
}.

(** One element of [chartData]; [undefined] is [None]. *)
Record ChartPoint := {
  year : Z;
  predictedValue : Q;
  meanValue : option Q;
  lowRange : option Q;
  highRange : option Q
}.

(** Reading a property of [undefined] throws a [TypeError]. *)
Inductive result (A : Type) : Type :=
| Ok (a : A)
| TypeError.
Arguments Ok {A} a.
Arguments TypeError {A}.

Definition bind {A B} (r : result A) (f : A -> result B) : result B :=
  match r with
  | Ok a => f a
  | TypeError => TypeError
  end.

Notation "'let*' x ':=' r 'in' k" := (bind r (fun x => k))
  (at level 10, x name, r at level 100, k at level 200).

(** [o.p] for an object [o] that may be [undefined] *)
Definition prop {A B} (o : option A) (p : A -> B) : result B :=
  match o with
  | Some a => Ok (p a)
  | None => TypeError
  end.

Fixpoint mapM {A B} (f : A -> result B) (l : list A) : result (list B) :=
  match l with
  | [] => Ok []
  | x :: r => let* y := f x in let* ys := mapM f r in Ok (y :: ys)
  end.

(** Truthiness of a property that holds a number, an object or a string,
    or is [undefined]. *)
Definition truthy_num (o : option Q) : bool :=
  match o with Some q => truthy_number q | None => false end.

Definition truthy_obj {A} (o : option A) : bool :=
  match o with Some _ => true | None => false end.

Definition truthy_str (o : option string) : bool :=
  match o with Some s => truthy_string s | None => false end.

Definition formatCurrency (value : Q) : string := Intl_format_USD0 value.

(** The callback of [Array.from({ length: 10 }, ...)]. *)
Definition chartPoint (currentYear : Z) (data : PredictionData) (index : nat)
  : result ChartPoint :=
  let yearOffset := index in
  let depreciation := Math_pow (85 # 100) yearOffset in
  let predictedValue := (predicted_value data * depreciation)%Q in
  let meanValue :=
    match mean_value data with
    | Some m => if truthy_number m then Some (m * depreciation)%Q else None
    | None => None
    end in
  let* lowRange :=
    if truthy_obj (price_range data)
    then let* l := prop (price_range data) low in Ok (Some (l * depreciation)%Q)
    else Ok None in
  let* highRange :=
    if truthy_obj (price_range data)
    then let* h := prop (price_range data) high in Ok (Some (h * depreciation)%Q)
    else Ok None in
  Ok {| year := currentYear + Z.of_nat yearOffset;
        predictedValue := predictedValue;
        meanValue := meanValue;
        lowRange := lowRange;
        highRange := highRange |}.

(** [Array.from({ length: 10 }, callback)]: the callback runs at the
    indices 0 to 9 in turn, and an exception in it ends the whole. *)
Definition chartData (currentYear : Z) (data : PredictionData)
  : result (list ChartPoint) :=
  mapM (chartPoint currentYear data) (seq 0 10).

(** [data.factors || { base_value: 0, ... }] *)
Definition defaultFactors : Factors :=
  {| base_value := 0; trim_multiplier := 1;
     condition_multiplier := 1; mileage_multiplier := 1 |}.

Definition factorsOf (data : PredictionData) : Factors :=
  match factors data with
  | Some f => f
  | None => defaultFactors
  end.

(** A [<Line dataKey=... name=... />] of the chart. *)
Record Line := { dataKey : string; name : string }.

(** What the component returns: the placeholder when there is no data,
    else the title, the chart and the text of the breakdown. *)
Inductive View : Type :=
| Placeholder (text : string)
| ChartView (overlay : bool) (title : string) (points : list ChartPoint)
    (lines : list Line) (breakdown : list string).

Definition percent (m : Q) : string := toFixed1 ((m - 1) * 100)%Q ++ "%".

Definition seriesLines (data : PredictionData) : list Line :=
  ([ {| dataKey := "predictedValue"; name := "Predicted Value" |} ]
  ++ (if truthy_num (mean_value data)
      then [ {| dataKey := "meanValue"; name := "Market Average" |} ]
      else [])
  ++ (if truthy_obj (price_range data)
      then [ {| dataKey := "lowRange"; name := "Minimum Range" |};
             {| dataKey := "highRange"; name := "Maximum Range" |} ]
      else []))%list.

Definition breakdownText (data : PredictionData) : result (list string) :=
  let factors := factorsOf data in
  let* range :=
    if truthy_obj (price_range data)
    then let* l := prop (price_range data) low in
         let* h := prop (price_range data) high in
         Ok [ "Current Value Range: " ++ formatCurrency l ++ " - " ++ formatCurrency h ]
    else Ok [] in
  let* conf :=
    if truthy_str (confidence data)
    then let* c := prop (confidence data) id in
         Ok [ "Confidence Level: " ++ toUpperCase (charAt0 c) ++ slice1 c ]
    else Ok [] in
  let rows :=
    [ "Base Value: " ++ formatCurrency (base_value factors);
      "Trim Adjustment: " ++ percent (trim_multiplier factors);
      "Condition Impact: " ++ percent (condition_multiplier factors);
      "Mileage Impact: " ++ percent (mileage_multiplier factors) ] in
  Ok (rows ++ range ++ conf)%list.

Definition titleText (data : PredictionData) : string :=
  "Value Prediction Over Time "
  ++ match category data with
     | Some c => if truthy_string c then "(" ++ c ++ ")" else ""
     | None => ""
     end.

Definition PredictionChart (currentYear : Z) (data : option PredictionData)
    (isLoading : bool) : result View :=
  match data with
  | None => Ok (Placeholder "Enter car details to see value prediction")
  | Some data =>
      let* chartData := chartData currentYear data in
      let* breakdown := breakdownText data in
      Ok (ChartView isLoading (titleText data) chartData (seriesLines data) breakdown)
  end.

End Chart.

(** ** CarPredictionForm.tsx *)

Module Form.
Import JS.

(** A value held by a property of the form object: the text of an input
    or the number the year starts with. *)
Inductive value : Type :=
| VStr (s : string)
| VNum (n : Z).

(** Truthiness of a property read from the form object; an absent
    property reads [undefined]. *)
Definition truthy (v : option value) : bool :=
  match v with
  | Some (VStr s) => truthy_string s
  | Some (VNum n) => negb (n =? 0)
  | None => false
  end.

(** The text of a property inside a template string. *)
Definition toString (v : option value) : string :=
  match v with
  | Some (VStr s) => s
  | Some (VNum n) => (if n <? 0 then "-" else "") ++ digits (Z.abs n)
  | None => "undefined"
  end.

Record CarModel := { id : Z; name : string; make_id : Z }.

(** An element of [response.data.Results] of the catalog service. *)
Record NhtsaModel := { Model_ID : Z; Model_Name : string; Make_ID : Z }.

Record CarYear := { year : Z }.

(** The state of the component, and [predictionData], the state of the
    page that [onPrediction] writes. *)
Record State := {
  formData : gmap string value;
  loading : bool;
  error : string;
  models : list CarModel;
  trims : list string;
  years : list CarYear;
  loadingModels : bool;
  loadingTrims : bool;
  predictionData : option Chart.PredictionData
}.

(** *** Network calls and the async monad *)

(** The three calls of the component, indexed by the type of the data of
    a resolved response. The trims endpoint answers with an object whose
    property [trims] is an array ([Some]) or is not ([None]). The body
    of the valuation request is built from the form object it carries. *)
Inductive request : Type -> Type :=
| GetModelsForMake (make : string) : request (list NhtsaModel)
| GetTrims (make model : string) : request (option (list string))
| PostPredict (formData : gmap string value) : request Chart.PredictionData.

Inductive outcome (R : Type) : Type :=
| Resolved (r : R)
| Rejected.
Arguments Resolved {R} r.
Arguments Rejected {R}.

(** An asynchronous function: it ends, or awaits a call and goes on with
    its outcome. *)
Inductive async (A : Type) : Type :=
| Done (a : A)
| Await {R : Type} (e : request R) (k : outcome R -> async A).
Arguments Done {A} a.
Arguments Await {A R} e k.

Fixpoint async_bind {A B} (t : async A) (f : A -> async B) : async B :=
  match t with
  | Done a => f a
  | Await e k => Await e (fun o => async_bind (k o) f)
  end.

(** How a block ends: normally, or by an exception on its way to the
    nearest [catch]. *)
Inductive completion (A : Type) : Type :=
| Normal (a : A)
| Throw.
Arguments Normal {A} a.
Arguments Throw {A}.

Definition M (A : Type) : Type := State -> async (completion A * State).

Definition ret {A} (a : A) : M A := fun s => Done (Normal a, s).

Definition throw {A} : M A := fun s => Done (Throw, s).

Definition bind {A B} (m : M A) (f : A -> M B) : M B :=
  fun s => async_bind (m s) (fun cs =>
    match cs with
    | (Normal a, s') => f a s'
    | (Throw, s') => Done (Throw, s')
    end).

Notation "'let*' x ':=' m 'in' k" := (bind m (fun x => k))
  (at level 10, x name, m at level 100, k at level 200).
Notation "m ';;' k" := (bind m (fun _ => k))
  (at level 100, k at level 200, right associativity).

(** [await axios.get(...)] and [await axios.post(...)]: a rejected
    promise throws. *)
Definition await {R} (e : request R) : M R :=
  fun s => Await e (fun o =>
    match o with
    | Resolved r => Done (Normal r, s)
    | Rejected => Done (Throw, s)
    end).

(** [try { body } catch (err) { handler }] *)
Definition try_catch {A} (body handler : M A) : M A :=
  fun s => async_bind (body s) (fun cs =>
    match cs with
    | (Normal a, s') => Done (Normal a, s')
    | (Throw, s') => handler s'
    end).

(** [try { body } finally { fin }] *)
Definition finally {A} (body : M A) (fin : M unit) : M A :=
  fun s => async_bind (body s) (fun cs =>
    async_bind (fin (snd cs)) (fun fs =>
      match fs with
      | (Normal _, s'') => Done (fst cs, s'')
      | (Throw, s'') => Done (Throw, s'')
      end)).

(** Running an asynchronous function against an environment that answers every call, and
    the number of calls it makes on the way. *)
Definition env : Type := forall R, request R -> outcome R.

Fixpoint run {A} (E : env) (t : async A) : A :=
  match t with
  | Done a => a
  | Await e k => run E (k (E _ e))
  end.

Fixpoint network_calls {A} (E : env) (t : async A) : nat :=
  match t with
  | Done _ => 0%nat
  | Await e k => S (network_calls E (k (E _ e)))
  end.

(** *** The state setters *)

Definition getFormData : M (gmap string value) := fun s => Done (Normal (formData s), s).

Definition setFormData (f : gmap string value -> gmap string value) : M unit :=
  fun s => Done (Normal tt,
    {| formData := f (formData s); loading := loading s; error := error s;
       models := models s; trims := trims s; years := years s;
       loadingModels := loadingModels s; loadingTrims := loadingTrims s;
       predictionData := predictionData s |}).

Definition setLoading (b : bool) : M unit :=
  fun s => Done (Normal tt,
    {| formData := formData s; loading := b; error := error s;
       models := models s; trims := trims s; years := years s;
       loadingModels := loadingModels s; loadingTrims := loadingTrims s;
       predictionData := predictionData s |}).

Definition setError (e : string) : M unit :=
  fun s => Done (Normal tt,
    {| formData := formData s; loading := loading s; error := e;
       models := models s; trims := trims s; years := years s;
       loadingModels := loadingModels s; loadingTrims := loadingTrims s;
       predictionData := predictionData s |}).

Definition setModels (l : list CarModel) : M unit :=
  fun s => Done (Normal tt,
    {| formData := formData s; loading := loading s; error := error s;
       models := l; trims := trims s; years := years s;
       loadingModels := loadingModels s; loadingTrims := loadingTrims s;
       predictionData := predictionData s |}).

Definition setTrims (l : list string) : M unit :=
  fun s => Done (Normal tt,
    {| formData := formData s; loading := loading s; error := error s;
       models := models s; trims := l; years := years s;
       loadingModels := loadingModels s; loadingTrims := loadingTrims s;
       predictionData := predictionData s |}).

Definition setYears (l : list CarYear) : M unit :=
  fun s => Done (Normal tt,
    {| formData := formData s; loading := loading s; error := error s;
       models := models s; trims := trims s; years := l;
       loadingModels := loadingModels s; loadingTrims := loadingTrims s;
       predictionData := predictionData s |}).

Definition setLoadingModels (b : bool) : M unit :=
  fun s => Done (Normal tt,
    {| formData := formData s; loading := loading s; error := error s;
       models := models s; trims := trims s; years := years s;
       loadingModels := b; loadingTrims := loadingTrims s;
       predictionData := predictionData s |}).

Definition setLoadingTrims (b : bool) : M unit :=
  fun s => Done (Normal tt,
    {| formData := formData s; loading := loading s; error := error s;
       models := models s; trims := trims s; years := years s;
       loadingModels := loadingModels s; loadingTrims := b;
       predictionData := predictionData s |}).

(** [onPrediction(data)] is [setPredictionData(data)] of the page. *)
Definition onPrediction (data : Chart.PredictionData) : M unit :=
  fun s => Done (Normal tt,
    {| formData := formData s; loading := loading s; error := error s;
       models := models s; trims := trims s; years := years s;
       loadingModels := loadingModels s; loadingTrims := loadingTrims s;
       predictionData := Some data |}).

Section Component.

(** [new Date().getFullYear()] *)
Variable currentYear : Z.

(** [a.localeCompare(b)]: negative, zero or positive. *)
Variable localeCompare : string -> string -> Z.

Definition initialState : State :=
  {| formData :=
       <["make" := VStr ""]> (<["model" := VStr ""]> (<["trim" := VStr ""]>
       (<["year" := VNum currentYear]> (<["mileage" := VStr ""]>
       (<["condition" := VStr "Good"]> (<["zip_code" := VStr ""]> ∅))))));
     loading := false; error := ""; models := []; trims := []; years := [];
     loadingModels := false; loadingTrims := false; predictionData := None |}.

(** The name of a catalog entry: trimmed, and without the make it may
    start with. *)
Definition modelName (make : string) (Model_Name : string) : string :=
  let name := trim Model_Name in
  if startsWith (toLowerCase name) (toLowerCase make)
  then trim (substring (String.length make) name)
  else name.

Definition toCarModel (make : string) (model : NhtsaModel) : CarModel :=
  {| id := Model_ID model;
     name := modelName make (Model_Name model);
     make_id := Make_ID model |}.

(** [response.data.Results.map(...).filter(...).sort(...)] *)
Definition modelsData (make : string) (Results : list NhtsaModel) : list CarModel :=
  Array_sort (fun a b => localeCompare (name a) (name b))
    (List.filter (fun model => truthy_string (name model))
       (List.map (toCarModel make) Results)).

(** The effect on [formData.make]. A make that is not a string has no
    [toLowerCase], which the callback of [map] finds out at the first
    element. *)
Definition fetchModels : M unit :=
  let* fd := getFormData in
  if negb (truthy (fd !! "make")) then setModels []
  else
    setLoadingModels true ;;
    finally
      (try_catch
         (let* Results := await (GetModelsForMake (toString (fd !! "make"))) in
          let* modelsData :=
            match fd !! "make", Results with
            | Some (VStr make), _ => ret (modelsData make Results)
            | _, [] => ret []
            | _, _ :: _ => throw
            end in
          setModels modelsData)
         (setError "Failed to load car models. Please try again." ;;
          setModels []))
      (setLoadingModels false).

(** The effect on [formData.make] and [formData.model]. *)
Definition fetchTrims : M unit :=
  let* fd := getFormData in
  if negb (truthy (fd !! "make")) || negb (truthy (fd !! "model")) then setTrims []
  else
    setLoadingTrims true ;;
    finally
      (try_catch
         (let* data := await (GetTrims (toString (fd !! "make")) (toString (fd !! "model"))) in
          match data with
          | Some trims => setTrims trims
          | None => setTrims []
          end)
         (setError "Failed to load trim options. Please try again." ;;
          setTrims []))
      (setLoadingTrims false).

(** The callback [(_, i) => ({ year: currentYear - i })]. *)
Definition yearAt (i : nat) : CarYear := {| year := currentYear - Z.of_nat i |}.

(** The effect on [formData.model]. *)
Definition generateYears : M unit :=
  let* fd := getFormData in
  if truthy (fd !! "model") then
    let yearsData :=
      Array_sort (fun a b => year b - year a) (Array_from 30 yearAt) in
    setYears yearsData
  else setYears [].

Definition newFormData (name : string) (v : value) (prev : gmap string value)
  : gmap string value :=
  let newData := <[name := v]> prev in
  if String.eqb name "make" then
    <["year" := VNum currentYear]> (<["trim" := VStr ""]> (<["model" := VStr ""]> newData))
  else if String.eqb name "model" then
    <["year" := VNum currentYear]> (<["trim" := VStr ""]> newData)
  else newData.

Definition handleChange (name : string) (v : value) : M unit :=
  setFormData (newFormData name v).

(** [formData.year.toString()] throws when the form has no year. *)
Definition handleSubmit : M unit :=
  setLoading true ;;
  setError "" ;;
  finally
    (try_catch
       (let* fd := getFormData in
        let* _ := match fd !! "year" with Some _ => ret tt | None => throw end in
        let* data := await (PostPredict fd) in
        onPrediction data)
       (setError "Failed to get prediction. Please try again."))
    (setLoading false).

End Component.

End Form.

(** ** What the form renders from its state *)

Module Page.
Import JS Form.

(** The [disabled] property of the model, trim and year selects and of
    the submit button. *)
Definition modelDisabled (st : State) : bool :=
  negb (truthy (formData st !! "make")) || loadingModels st.

Definition trimDisabled (st : State) : bool :=
  negb (truthy (formData st !! "model")) || loadingTrims st.

Definition yearDisabled (st : State) : bool :=
  negb (truthy (formData st !! "model")).

Definition submitDisabled (st : State) : bool :=
  loading st
  || negb (truthy (formData st !! "make"))
  || negb (truthy (formData st !! "model"))
  || negb (truthy (formData st !! "year")).

(** The values a select offers: [years.map(...)] for the year, and for
    the model the empty value followed, unless the catalog is loading, by
    [models.map(...)]. *)
Definition yearOptions (st : State) : list value :=
  List.map (fun y => VNum (year y)) (years st).

Definition modelOptions (st : State) : list value :=
  VStr "" :: (if loadingModels st then []
              else List.map (fun model => VStr (name model)) (models st)).

(** [{error && (...)}]: the message under the button. *)
Definition errorShown (st : State) : option string :=
  if truthy_string (error st) then Some (error st) else None.

(** [{(predictionData || loading) && (<PredictionChart data={predictionData}
    isLoading={loading} />)}] *)
Definition chartArea (currentYear : Z) (st : State) : option (Chart.result Chart.View) :=
  if Chart.truthy_obj (predictionData st) || loading st
  then Some (Chart.PredictionChart currentYear (predictionData st) (loading st))
  else None.

End Page.

(** ** The vertical axis of the chart *)

Module Axis.

(** The two functions of the [domain] of the [YAxis]:
    [Math.floor(dataMin * 0.8)] and [Math.ceil(dataMax * 1.2)]. *)
Definition domainMin (dataMin : Q) : Z := Qfloor (dataMin * (8 # 10))%Q.

Definition domainMax (dataMax : Q) : Z := Qceiling (dataMax * (12 # 10))%Q.

End Axis.

(** ** The projected value on doubles *)

Module Double.
Import Floats.

(** [Math.pow(b, k)] on doubles at an array index [k]: the double nearest
    to the exact power of the double [b] (the language leaves the last
    bit of [Math.pow] to the engine), with the special values of the
    language at zeros, infinities and [NaN]. *)
Definition Math_pow (b : float) (k : nat) : float :=
  match k with
  | O => 1%float
  | S _ =>
      match Prim2SF b with
      | S754_nan => nan
      | S754_zero s => SF2Prim (S754_zero (s && Nat.odd k))
      | S754_infinity s => SF2Prim (S754_infinity (s && Nat.odd k))
      | S754_finite s m e =>
          SF2Prim (binary_round prec emax (s && Nat.odd k)
                     (Pos.pow m (Pos.of_nat k)) (e * Z.of_nat k))
      end
  end.

(** The double written [0.85] in the source. *)
Definition rate : float := 0x1.b333333333333p-1%float.

(** [data.predicted_value * Math.pow(0.85, yearOffset)] *)
Definition predictedValue (predicted_value : float) (index : nat) : float :=
  let yearOffset := index in
  let depreciation := Math_pow rate yearOffset in
  (predicted_value * depreciation)%float.



End Double.

(** ** The body of the valuation request *)

Module Body.
Import JS Form.

(** The value of a digit in a radix, when it is one. *)
Definition digit_value (radix : Z) (c : ascii) : option Z :=
  let n := Z.of_nat (nat_of_ascii c) in
  let v :=
    if (48 <=? n) && (n <=? 57) then Some (n - 48)
    else if (97 <=? n) && (n <=? 122) then Some (n - 87)
    else if (65 <=? n) && (n <=? 90) then Some (n - 55)
    else None in
  match v with
  | Some d => if d <? radix then Some d else None
  | None => None
  end.

(** The integer of the longest run of digits at the start of [s], after
    the digits read so far; [None] when no digit has been read. *)
Fixpoint parse_digits (radix : Z) (acc : option Z) (s : string) : option Z :=
  match s with
  | EmptyString => acc
  | String c r =>
      match digit_value radix c with
      | Some d =>
          parse_digits radix
            (Some (match acc with Some a => a * radix + d | None => d end)) r
      | None => acc
      end
  end.

(** [parseInt(s)] without a radix: leading white space, a sign and the
    prefix [0x] are read first; [None] is [NaN]. *)
Definition parseInt (s : string) : option Z :=
  let s0 := trimStart s in
  let '(sign, s1) :=
    match s0 with
    | String "-" r => (-1, r)
    | String "+" r => (1, r)
    | _ => (1, s0)
    end in
  let '(radix, s2) :=
    match s1 with
    | String "0" (String "x" r) => (16, r)
    | String "0" (String "X" r) => (16, r)
    | _ => (10, s1)
    end in
  option_map (Z.mul sign) (parse_digits radix None s2).

(** A value of the object handed to [axios.post]. The number
    [parseFloat(text)] is kept as the text it is read from. *)
Inductive json : Type :=
| JString (s : string)
| JInt (n : Z)
| JNaN
| JFloatOf (text : string)
| JNull.

Definition of_value (v : value) : json :=
  match v with
  | VStr s => JString s
  | VNum n => JInt n
  end.

(** [{ ...formData, year: parseInt(formData.year.toString()),
       mileage: formData.mileage ? parseFloat(formData.mileage) : null }];
    [None] when [formData.year] is [undefined] and [toString] throws. *)
Definition predictBody (formData : gmap string value) : option (gmap string json) :=
  match formData !! "year" with
  | None => None
  | Some y =>
      let year :=
        match parseInt (toString (Some y)) with
        | Some n => JInt n
        | None => JNaN
        end in
      let mileage :=
        if truthy (formData !! "mileage")
        then JFloatOf (toString (formData !! "mileage"))
        else JNull in
      Some (<["mileage" := mileage]> (<["year" := year]> (of_value <$> formData)))
  end.

End Body.

(** ** Sample environments and inputs for the further properties *)

Module Cases.
Import Form.

(** An environment in which the catalog answers with two entries, the
    trims endpoint with two trims and the valuation endpoint with a
    valuation. *)
Definition civicResults : list NhtsaModel :=
  [ {| Model_ID := 7; Model_Name := " Honda Civic "; Make_ID := 474 |};
    {| Model_ID := 8; Model_Name := "Accord"; Make_ID := 474 |} ].

Definition civicData : Chart.PredictionData :=
  {| Chart.predicted_value := 21000;
     Chart.mean_value := None;
     Chart.price_range := Some {| Chart.low := 19000; Chart.high := 23000 |};
     Chart.category := None;
     Chart.factors := None;
     Chart.confidence := None;
     Chart.data_year := 2022 |}.

Definition online : env :=
  fun R e =>
    match e in request R return outcome R with
    | GetModelsForMake _ => Resolved civicResults
    | GetTrims _ _ => Resolved (Some [ "LX"; "EX" ])
    | PostPredict _ => Resolved civicData
    end.

(** A form with the make Honda selected, an old message and no valuation. *)
Definition hondaForm : State :=
  {| formData := <["make" := VStr "Honda"]> (formData (initialState 2026));
     loading := false; error := "Failed to load trim options. Please try again.";
     models := []; trims := []; years := [];
     loadingModels := false; loadingTrims := false;
     predictionData := None |}.

(** A valuation below zero. *)
Definition debtData : Chart.PredictionData :=
  {| Chart.predicted_value := - (500 # 1);
     Chart.mean_value := None;
     Chart.price_range := None;
     Chart.category := None;
     Chart.factors := None;
     Chart.confidence := None;
     Chart.data_year := 2020 |}.

End Cases.

(** ** Vocabulary of the statements and sample inputs *)

(** [b] is on the side of zero where [a] is and no farther from it. *)
Definition towards_zero (a b : Q) : Prop :=
  ((0 <= a -> 0 <= b /\ b <= a) /\ (a <= 0 -> a <= b /\ b <= 0))%Q.

(** [a] may stand before [b] in an array sorted by the comparator [cmp]. *)
Definition before {A} (cmp : A -> A -> Z) (a b : A) : Prop := cmp a b <= 0.

(** The valuation [data] with its mean value taken away. *)
Definition withoutMean (data : Chart.PredictionData) : Chart.PredictionData :=
  {| Chart.predicted_value := Chart.predicted_value data;
     Chart.mean_value := None;
     Chart.price_range := Chart.price_range data;
     Chart.category := Chart.category data;
     Chart.factors := Chart.factors data;
     Chart.confidence := Chart.confidence data;
     Chart.data_year := Chart.data_year data |}.

(** The three series the chart can draw besides the predicted one. *)
Definition predictedLine : Chart.Line :=
  {| Chart.dataKey := "predictedValue"; Chart.name := "Predicted Value" |}.
Definition meanLine : Chart.Line :=
  {| Chart.dataKey := "meanValue"; Chart.name := "Market Average" |}.
Definition lowLine : Chart.Line :=
  {| Chart.dataKey := "lowRange"; Chart.name := "Minimum Range" |}.
Definition highLine : Chart.Line :=
  {| Chart.dataKey := "highRange"; Chart.name := "Maximum Range" |}.

Module Samples.
Import Form.

(** The environment in which every request fails. *)
Definition offline : env := fun R _ => Rejected.

(** A form with a make and a model selected, a list of models and of
    trims loaded and a valuation on display. *)
Definition camryData : Chart.PredictionData :=
  {| Chart.predicted_value := 17955;
     Chart.mean_value := Some (18000 # 1);
     Chart.price_range := Some {| Chart.low := 16000; Chart.high := 19500 |};
     Chart.category := Some "sedan";
     Chart.factors :=
       Some {| Chart.base_value := 20000; Chart.trim_multiplier := 105 # 100;
               Chart.condition_multiplier := 95 # 100;
               Chart.mileage_multiplier := 9 # 10 |};
     Chart.confidence := Some "high";
     Chart.data_year := 2020 |}.

Definition camryForm : State :=
  {| formData :=
       <["make" := VStr "Toyota"]> (<["model" := VStr "Camry"]>
         (formData (initialState 2026)));
     loading := false; error := "";
     models := [ {| id := 1; name := "Camry"; make_id := 448 |} ];
     trims := [ "LE"; "SE" ];
     years := [];
     loadingModels := false; loadingTrims := false;
     predictionData := Some camryData |}.

(** The catalog answer of the example. *)
Definition corollaResults : list NhtsaModel :=
  [ {| Model_ID := 1; Model_Name := "Corolla Corolla LE"; Make_ID := 448 |};
    {| Model_ID := 2; Model_Name := "Corolla"; Make_ID := 448 |} ].

(** A valuation without a price range, one whose mean is zero, one whose
    predicted value is zero and one without the factors. *)
Definition noRange : Chart.PredictionData :=
  {| Chart.predicted_value := 17955;
     Chart.mean_value := Some (18000 # 1);
     Chart.price_range := None;
     Chart.category := None;
     Chart.factors := Chart.factors camryData;
     Chart.confidence := None;
     Chart.data_year := 2020 |}.

Definition zeroMean : Chart.PredictionData :=
  {| Chart.predicted_value := 17955;
     Chart.mean_value := Some (0 # 1);
     Chart.price_range := Chart.price_range camryData;
     Chart.category := None;
     Chart.factors := Chart.factors camryData;
     Chart.confidence := None;
     Chart.data_year := 2020 |}.

Definition zeroPredicted : Chart.PredictionData :=
  {| Chart.predicted_value := 0;
     Chart.mean_value := None;
     Chart.price_range := None;
     Chart.category := None;
     Chart.factors := None;
     Chart.confidence := None;
     Chart.data_year := 2020 |}.

Definition noFactors : Chart.PredictionData :=
  {| Chart.predicted_value := 17955;
     Chart.mean_value := None;
     Chart.price_range := None;
     Chart.category := None;
     Chart.factors := None;
     Chart.confidence := Some "medium";
     Chart.data_year := 2020 |}.

End Samples.

(** * Properties *)

(** ** Arrays: [sort] *)

Section SortFacts.
Context {A : Type} (cmp : A -> A -> Z).

Lemma sort_insert_perm (x : A) (l : list A) :
  Permutation (JS.sort_insert cmp x l) (x :: l).
Proof.
  induction l as [|y r IH]; simpl; [reflexivity|].
  destruct (cmp x y <=? 0); [reflexivity|].
  rewrite IH. apply perm_swap.
Qed.

Lemma Array_sort_perm (l : list A) : Permutation (JS.Array_sort cmp l) l.
Proof.
  induction l as [|x r IH]; simpl; [reflexivity|].
  rewrite sort_insert_perm. now rewrite IH.
Qed.

Lemma sort_insert_hd (x a : A) (l : list A) :
  before cmp a x -> HdRel (before cmp) a l -> HdRel (before cmp) a (JS.sort_insert cmp x l).
Proof.
  intros Hax Hal. destruct l as [|y r]; simpl.
  - now constructor.
  - destruct (cmp x y <=? 0); constructor; [assumption|].
    now inversion Hal.
Qed.

Lemma sort_insert_sorted (x : A) (l : list A) :
  (forall a b, before cmp a b \/ before cmp b a) ->
  Sorted (before cmp) l -> Sorted (before cmp) (JS.sort_insert cmp x l).
Proof.
  intros Htot. induction 1 as [|y r Hr IH Hy]; simpl.
  - repeat constructor.
  - destruct (cmp x y <=? 0) eqn:E.
    + apply Z.leb_le in E. repeat constructor; assumption.
    + apply Z.leb_gt in E. constructor; [exact IH|].
      apply sort_insert_hd; [|exact Hy].
      destruct (Htot x y) as [H|H]; [unfold before in H; lia | exact H].
Qed.

Lemma Array_sort_sorted (l : list A) :
  (forall a b, before cmp a b \/ before cmp b a) ->
  Sorted (before cmp) (JS.Array_sort cmp l).
Proof.
  intros Htot. induction l as [|x r IH]; simpl; [constructor|].
  now apply sort_insert_sorted.
Qed.

(** Sorting an array that is in order already leaves it as it is. *)
Lemma Array_sort_id (l : list A) :
  Sorted (before cmp) l -> JS.Array_sort cmp l = l.
Proof.
  induction 1 as [|x r Hr IH Hx]; simpl; [reflexivity|].
  rewrite IH. destruct Hx as [|y r' Hxy]; simpl; [reflexivity|].
  unfold before in Hxy. apply Z.leb_le in Hxy. now rewrite Hxy.
Qed.

End SortFacts.

(** ** The dependent-field cascade *)

Section Cascade.
Import Form.
Variable currentYear : Z.

Lemma newFormData_make (v : value) (prev : gmap string value) :
  newFormData currentYear "make" v prev
  = <["year" := VNum currentYear]> (<["trim" := VStr ""]>
      (<["model" := VStr ""]> (<["make" := v]> prev))).
Proof. reflexivity. Qed.

Lemma newFormData_model (v : value) (prev : gmap string value) :
  newFormData currentYear "model" v prev
  = <["year" := VNum currentYear]> (<["trim" := VStr ""]> (<["model" := v]> prev)).
Proof. reflexivity. Qed.


Lemma handleChange_done (name : string) (v : value) (st : State) :
  exists st',
    handleChange currentYear name v st = Done (Normal tt, st')
    /\ formData st' = newFormData currentYear name v (formData st)
    /\ models st' = models st /\ trims st' = trims st /\ years st' = years st
    /\ error st' = error st /\ predictionData st' = predictionData st.
Proof. eexists. repeat split. Qed.

End Cascade.

Section CascadeClaims.
Import Form.

(** C4. For every prior form state, a change of the make field clears
    the model and the trim to the empty string and resets the year to the
    current calendar year. *)
Theorem make_change_clears_model_trim_resets_year
    (currentYear : Z) (v : value) (st : State) :
  exists st',
    handleChange currentYear "make" v st = Done (Normal tt, st')
    /\ formData st' !! "model" = Some (VStr "")
    /\ formData st' !! "trim" = Some (VStr "")
    /\ formData st' !! "year" = Some (VNum currentYear).
Proof.
  destruct (handleChange_done currentYear "make" v st) as (st' & Hrun & Hfd & _).
  exists st'. rewrite Hfd, newFormData_make.
  split; [exact Hrun|]. by simplify_map_eq.
Qed.

(** C3, as the code has it. For every prior form state, a change of the
    make field stores the new make, clears the model and the trim to the
    empty string and resets the year to the current calendar year; a
    change of the model field stores the new model, keeps the make,
    clears the trim to the empty string and resets the year to the
    current calendar year. *)
Theorem upstream_change_resets_downstream
    (currentYear : Z) (v : value) (st : State) :
  (exists st',
      handleChange currentYear "make" v st = Done (Normal tt, st')
      /\ formData st' !! "make" = Some v
      /\ formData st' !! "model" = Some (VStr "")
      /\ formData st' !! "trim" = Some (VStr "")
      /\ formData st' !! "year" = Some (VNum currentYear))
  /\ (exists st',
      handleChange currentYear "model" v st = Done (Normal tt, st')
      /\ formData st' !! "make" = formData st !! "make"
      /\ formData st' !! "model" = Some v
      /\ formData st' !! "trim" = Some (VStr "")
      /\ formData st' !! "year" = Some (VNum currentYear)).
Proof.
  split.
  - destruct (handleChange_done currentYear "make" v st) as (st' & Hrun & Hfd & _).
    exists st'. rewrite Hfd, newFormData_make.
    split; [exact Hrun|]. by simplify_map_eq.
  - destruct (handleChange_done currentYear "model" v st) as (st' & Hrun & Hfd & _).
    exists st'. rewrite Hfd, newFormData_model.
    split; [exact Hrun|]. by simplify_map_eq.
Qed.

(** C3, as stated, fails: after a change of the make the year holds the
    current calendar year, not the empty value, and after a change of
    the model the model holds the new selection. *)
Lemma upstream_change_does_not_empty_year :
  ~ (forall (currentYear : Z) (name : string) (v : value) (st st' : State),
        name = "make" \/ name = "model" ->
        handleChange currentYear name v st = Done (Normal tt, st') ->
        formData st' !! "model" = Some (VStr "")
        /\ formData st' !! "trim" = Some (VStr "")
        /\ formData st' !! "year" = Some (VStr "")).
Proof.
  intros H.
  destruct (H 2026 "make" (VStr "Toyota") (initialState 2026) _
              (or_introl eq_refl) eq_refl) as (_ & _ & Hyear).
  vm_compute in Hyear. discriminate Hyear.
Qed.

End CascadeClaims.

(** ** The year list *)

Section Years.
Import Form.
Variable currentYear : Z.

(** The array built by [Array.from] is in the order of the comparator
    [(a, b) => b.year - a.year] already. *)
Lemma years_in_order (s n : nat) :
  Sorted (before (fun a b => year b - year a)) (List.map (yearAt currentYear) (seq s n)).
Proof.
  revert s. induction n as [|n IH]; intros s; simpl; constructor.
  - apply IH.
  - destruct n; simpl; constructor. unfold before; simpl. lia.
Qed.

Lemma years_descending (s n : nat) :
  StronglySorted Z.gt (List.map year (List.map (yearAt currentYear) (seq s n))).
Proof.
  revert s. induction n as [|n IH]; intros s; simpl; constructor.
  - apply IH.
  - apply List.Forall_forall. intros y Hy.
    apply List.in_map_iff in Hy as (c & <- & Hc).
    apply List.in_map_iff in Hc as (i & <- & Hi).
    apply List.in_seq in Hi. simpl. lia.
Qed.

Lemma descending_NoDup (l : list Z) : StronglySorted Z.gt l -> List.NoDup l.
Proof.
  induction 1 as [|x l Hl IH Hx]; constructor; [|exact IH].
  intros Hin. rewrite List.Forall_forall in Hx. specialize (Hx x Hin). lia.
Qed.

Lemma generateYears_selected (st : State) :
  truthy (formData st !! "model") = true ->
  exists st',
    generateYears currentYear st = Done (Normal tt, st')
    /\ years st' = List.map (yearAt currentYear) (seq 0 30).
Proof.
  intros Hmodel. unfold generateYears, bind, getFormData.
  cbn [async_bind]. rewrite Hmodel. unfold setYears.
  eexists. split; [reflexivity|]. cbn [years].
  unfold JS.Array_from. apply (Array_sort_id _ _ (years_in_order 0 30)).
Qed.

(** C5. Whenever a model is selected, the year list holds exactly 30
    pairwise distinct years in strictly descending order, the first and
    greatest of them the current calendar year, the last one 29 years
    before; the effect that builds it ends without a network call. *)
Theorem year_list_thirty_descending (st : State)
    (Hmodel : truthy (formData st !! "model") = true) :
  exists st',
    generateYears currentYear st = Done (Normal tt, st')
    /\ List.length (years st') = 30%nat
    /\ List.NoDup (List.map year (years st'))
    /\ StronglySorted Z.gt (List.map year (years st'))
    /\ List.head (List.map year (years st')) = Some currentYear
    /\ (forall y, List.In y (List.map year (years st'))
                  <-> currentYear - 29 <= y <= currentYear)
    /\ (forall E, network_calls E (generateYears currentYear st) = 0%nat).
Proof.
  destruct (generateYears_selected st Hmodel) as (st' & Hrun & Hyears).
  exists st'. rewrite Hrun, Hyears.
  split; [reflexivity|]. split; [reflexivity|].
  split; [apply descending_NoDup, years_descending|].
  split; [apply years_descending|].
  split; [simpl; f_equal; lia|].
  split; [|reflexivity].
  intros y. rewrite List.map_map, List.in_map_iff. split.
  - intros (i & <- & Hi). apply List.in_seq in Hi. simpl. lia.
  - intros Hy. exists (Z.to_nat (currentYear - y)). split.
    + simpl. lia.
    + apply List.in_seq. lia.
Qed.

End Years.

(** With the Camry selected in 2026 the list runs from 2026 down to 1997. *)
Lemma year_list_thirty_descending_witness :
  Form.truthy (Form.formData Samples.camryForm !! "model") = true
  /\ exists st',
      Form.generateYears 2026 Samples.camryForm = Form.Done (Form.Normal tt, st')
      /\ List.length (Form.years st') = 30%nat
      /\ List.NoDup (List.map Form.year (Form.years st'))
      /\ StronglySorted Z.gt (List.map Form.year (Form.years st'))
      /\ List.head (List.map Form.year (Form.years st')) = Some 2026
      /\ (forall y, List.In y (List.map Form.year (Form.years st'))
                    <-> 2026 - 29 <= y <= 2026)
      /\ (forall E, Form.network_calls E (Form.generateYears 2026 Samples.camryForm) = 0%nat).
Proof.
  split; [reflexivity|].
  apply (year_list_thirty_descending 2026 Samples.camryForm). reflexivity.
Defined.

(** ** The handlers when the request succeeds *)

Section Successes.
Import Form.
Variable localeCompare : string -> string -> Z.
Variable E : env.

Lemma fetchModels_resolved (st : State) (make : string) (Results : list NhtsaModel) :
  formData st !! "make" = Some (VStr make) ->
  make <> "" ->
  E _ (GetModelsForMake make) = Resolved Results ->
  let r := run E (fetchModels localeCompare st) in
  fst r = Normal tt
  /\ models (snd r) = modelsData localeCompare make Results
  /\ error (snd r) = error st
  /\ loadingModels (snd r) = false.
Proof.
  intros Hmake Hne HE. unfold fetchModels, bind, getFormData. cbn [async_bind].
  rewrite Hmake. destruct make as [|c make]; [contradiction|]. cbn [truthy JS.truthy_string negb].
  unfold finally, try_catch, await, setLoadingModels. cbn [async_bind run formData].
  cbn [toString]. rewrite HE. cbn [async_bind run ret].
  unfold ret, setModels. cbn. repeat split.
Qed.

Lemma handleSubmit_resolved (st : State) (data : Chart.PredictionData) :
  is_Some (formData st !! "year") ->
  E _ (PostPredict (formData st)) = Resolved data ->
  let r := run E (handleSubmit st) in
  fst r = Normal tt
  /\ predictionData (snd r) = Some data
  /\ error (snd r) = ""
  /\ loading (snd r) = false.
Proof.
  intros [y Hy] HE.
  unfold handleSubmit, bind, finally, try_catch, getFormData, setLoading, setError.
  cbn [async_bind run formData fst snd]. rewrite Hy.
  unfold ret, await. cbn [async_bind run]. rewrite HE. cbn. repeat split.
Qed.

End Successes.

(** ** The failure paths *)

Section Failures.
Import Form.
Variable currentYear : Z.
Variable localeCompare : string -> string -> Z.
Variable E : env.
Hypothesis offline : forall R (e : request R), E R e = Rejected.

Lemma fetchModels_rejected (st : State) :
  let r := run E (fetchModels localeCompare st) in
  fst r = Normal tt
  /\ models (snd r) = []
  /\ error (snd r)
     = (if truthy (formData st !! "make")
        then "Failed to load car models. Please try again."
        else error st)
  /\ loadingModels (snd r) = (if truthy (formData st !! "make") then false else loadingModels st)
  /\ predictionData (snd r) = predictionData st.
Proof.
  unfold fetchModels, bind, getFormData. cbn [async_bind].
  destruct (truthy (formData st !! "make")); cbn [negb].
  - unfold finally, try_catch, await, setLoadingModels. cbn [async_bind run formData].
    rewrite offline. cbn. repeat split.
  - cbn. repeat split.
Qed.

Lemma fetchTrims_rejected (st : State) :
  let r := run E (fetchTrims st) in
  let selected := truthy (formData st !! "make") && truthy (formData st !! "model") in
  fst r = Normal tt
  /\ trims (snd r) = []
  /\ error (snd r)
     = (if selected
        then "Failed to load trim options. Please try again."
        else error st)
  /\ loadingTrims (snd r) = (if selected then false else loadingTrims st)
  /\ predictionData (snd r) = predictionData st.
Proof.
  unfold fetchTrims, bind, getFormData. cbn [async_bind].
  destruct (truthy (formData st !! "make")), (truthy (formData st !! "model"));
    cbn [negb orb andb].
  - unfold finally, try_catch, await, setLoadingTrims. cbn [async_bind run formData].
    rewrite offline. cbn. repeat split.
  - cbn. repeat split.
  - cbn. repeat split.
  - cbn. repeat split.
Qed.

Lemma handleSubmit_rejected (st : State) :
  let r := run E (handleSubmit st) in
  fst r = Normal tt
  /\ error (snd r) = "Failed to get prediction. Please try again."
  /\ predictionData (snd r) = predictionData st
  /\ loading (snd r) = false
  /\ models (snd r) = models st
  /\ trims (snd r) = trims st
  /\ formData (snd r) = formData st.
Proof.
  unfold handleSubmit, bind, finally, try_catch, getFormData, setLoading, setError.
  cbn [async_bind run formData fst snd].
  destruct (formData st !! "year"); cbn [async_bind run ret throw].
  - unfold ret, await. cbn [async_bind run]. rewrite offline. cbn. repeat split.
  - cbn. repeat split.
Qed.

(** C6. When the catalog request, the trim request or the valuation
    request fails, the handler that made it ends normally (the error is
    caught where the call is made) and leaves a fixed message in
    [error]; the list of models, respectively of trims, is empty
    afterwards; a failed submission leaves the valuation on display as it
    was. *)
Theorem failures_caught_message_set_lists_reset (st : State) :
  let m := run E (fetchModels localeCompare st) in
  let t := run E (fetchTrims st) in
  let p := run E (handleSubmit st) in
  (fst m = Normal tt
   /\ models (snd m) = []
   /\ error (snd m)
      = (if truthy (formData st !! "make")
         then "Failed to load car models. Please try again."
         else error st))
  /\ (fst t = Normal tt
      /\ trims (snd t) = []
      /\ error (snd t)
         = (if truthy (formData st !! "make") && truthy (formData st !! "model")
            then "Failed to load trim options. Please try again."
            else error st))
  /\ (fst p = Normal tt
      /\ error (snd p) = "Failed to get prediction. Please try again."
      /\ predictionData (snd p) = predictionData st).
Proof.
  intros m t p.
  destruct (fetchModels_rejected st) as (Hm1 & Hm2 & Hm3 & _).
  destruct (fetchTrims_rejected st) as (Ht1 & Ht2 & Ht3 & _).
  destruct (handleSubmit_rejected st) as (Hp1 & Hp2 & Hp3 & _).
  repeat split; assumption.
Qed.

End Failures.

(** The Camry form, offline: each of the three handlers leaves its message,
    the two lists are emptied and the valuation stays on display. *)
Lemma failures_caught_witness :
  (forall R (e : Form.request R), Samples.offline R e = Form.Rejected)
  /\ Form.error (snd (Form.run Samples.offline
         (Form.fetchModels JS.codeUnitCompare Samples.camryForm)))
     = "Failed to load car models. Please try again."
  /\ Form.models (snd (Form.run Samples.offline
         (Form.fetchModels JS.codeUnitCompare Samples.camryForm))) = []
  /\ Form.error (snd (Form.run Samples.offline (Form.fetchTrims Samples.camryForm)))
     = "Failed to load trim options. Please try again."
  /\ Form.trims (snd (Form.run Samples.offline (Form.fetchTrims Samples.camryForm))) = []
  /\ Form.error (snd (Form.run Samples.offline (Form.handleSubmit Samples.camryForm)))
     = "Failed to get prediction. Please try again."
  /\ Form.predictionData (snd (Form.run Samples.offline (Form.handleSubmit Samples.camryForm)))
     = Some Samples.camryData.
Proof.
  assert (Hoff : forall R (e : Form.request R), Samples.offline R e = Form.Rejected)
    by reflexivity.
  split; [exact Hoff|].
  destruct (failures_caught_message_set_lists_reset JS.codeUnitCompare
              Samples.offline Hoff Samples.camryForm)
    as ((_ & Hm & Hme) & (_ & Ht & Hte) & (_ & Hpe & Hp)).
  repeat split; assumption.
Defined.

(** ** The catalog of models *)

Section Catalog.
Import JS Form.

Lemma toLowerCase_app (a b : string) :
  toLowerCase (a ++ b) = toLowerCase a ++ toLowerCase b.
Proof. induction a as [|c a IH]; simpl; [reflexivity|]. now rewrite IH. Qed.

Lemma toLowerCase_length (a : string) :
  String.length (toLowerCase a) = String.length a.
Proof. induction a as [|c a IH]; simpl; [reflexivity|]. now rewrite IH. Qed.

Lemma startsWith_app (a b : string) : startsWith (a ++ b) a = true.
Proof.
  unfold startsWith. induction a as [|c a IH]; simpl.
  - now destruct b.
  - destruct (ascii_dec c c); [exact IH|contradiction].
Qed.

Lemma substring_app (a b : string) : substring (String.length a) (a ++ b) = b.
Proof. induction a as [|c a IH]; simpl; [reflexivity|exact IH]. Qed.

(** A name that starts with the make, in whatever case, loses it. *)
Lemma modelName_strips (make raw lead rest : string) :
  trim raw = lead ++ rest ->
  toLowerCase lead = toLowerCase make ->
  modelName make raw = trim rest.
Proof.
  intros Hraw Hlead. unfold modelName. rewrite Hraw.
  rewrite toLowerCase_app, Hlead, startsWith_app.
  rewrite <- (toLowerCase_length make), <- Hlead, toLowerCase_length.
  now rewrite substring_app.
Qed.

Lemma modelName_keeps (make raw : string) :
  startsWith (toLowerCase (trim raw)) (toLowerCase make) = false ->
  modelName make raw = trim raw.
Proof. intros H. unfold modelName. now rewrite H. Qed.

Lemma truthy_string_nonempty (s : string) : truthy_string s = true <-> s <> "".
Proof. destruct s; simpl; split; congruence. Qed.

(** C2, as the code has it. The names of a catalog answer are trimmed,
    lose one leading occurrence of the make (compared without regard to
    case) and are trimmed again; the entries whose name is then empty
    are dropped and the others are sorted by [localeCompare]. For the
    make "Corolla" and the names "Corolla Corolla LE" and "Corolla" the
    result is the single name "Corolla LE". *)
Theorem catalog_names_normalised
    (localeCompare : string -> string -> Z) (make : string) (Results : list NhtsaModel)
    (Htotal : forall a b, localeCompare a b <= 0 \/ localeCompare b a <= 0) :
  let out := modelsData localeCompare make Results in
  Permutation out
    (List.filter (fun model => truthy_string (name model))
       (List.map (toCarModel make) Results))
  /\ List.Forall (fun model => name model <> "") out
  /\ Sorted (fun a b => localeCompare (name a) (name b) <= 0) out
  /\ (forall model, List.In model out ->
        exists r, List.In r Results /\ id model = Model_ID r
                  /\ name model = modelName make (Model_Name r))
  /\ (forall raw lead rest,
        trim raw = lead ++ rest -> toLowerCase lead = toLowerCase make ->
        modelName make raw = trim rest)
  /\ (forall raw,
        startsWith (toLowerCase (trim raw)) (toLowerCase make) = false ->
        modelName make raw = trim raw)
  /\ List.map name (modelsData localeCompare "Corolla" Samples.corollaResults)
     = [ "Corolla LE" ].
Proof.
  intros out.
  assert (Hperm : Permutation out
    (List.filter (fun model => truthy_string (name model))
       (List.map (toCarModel make) Results))) by apply Array_sort_perm.
  assert (Hin : forall model, List.In model out ->
    truthy_string (name model) = true /\ List.In model (List.map (toCarModel make) Results)).
  { intros model Hm. apply (Permutation_in _ Hperm) in Hm.
    apply List.filter_In in Hm. tauto. }
  split; [exact Hperm|].
  split.
  { apply List.Forall_forall. intros model Hm.
    apply truthy_string_nonempty, Hin, Hm. }
  split.
  { apply (Array_sort_sorted (fun a b => localeCompare (name a) (name b))).
    intros a b. apply Htotal. }
  split.
  { intros model Hm. destruct (Hin model Hm) as [_ Hmap].
    apply List.in_map_iff in Hmap as (r & <- & Hr). exists r. auto. }
  split; [intros raw lead rest; apply modelName_strips|].
  split; [intros raw; apply modelName_keeps|].
  reflexivity.
Qed.

(** C2, as stated, fails: the make is stripped once, so the first name
    of the example becomes "Corolla LE" and not "LE". *)
Lemma corolla_catalog_is_not_LE :
  List.map name (modelsData codeUnitCompare "Corolla" Samples.corollaResults)
    = [ "Corolla LE" ]
  /\ List.map name (modelsData codeUnitCompare "Corolla" Samples.corollaResults)
    <> [ "LE" ].
Proof. split; [reflexivity|]. vm_compute. discriminate. Qed.

Lemma codeUnitCompare_total (a b : string) :
  codeUnitCompare a b <= 0 \/ codeUnitCompare b a <= 0.
Proof.
  unfold codeUnitCompare. rewrite (String.compare_antisym a b).
  destruct (String.compare b a); simpl; lia.
Qed.

End Catalog.

(** The example of the catalog under the comparison by code units. *)
Lemma catalog_names_normalised_witness :
  (forall a b, JS.codeUnitCompare a b <= 0 \/ JS.codeUnitCompare b a <= 0)
  /\ Sorted (fun a b => JS.codeUnitCompare (Form.name a) (Form.name b) <= 0)
       (Form.modelsData JS.codeUnitCompare "Corolla" Samples.corollaResults)
  /\ List.map Form.name (Form.modelsData JS.codeUnitCompare "Corolla" Samples.corollaResults)
     = [ "Corolla LE" ].
Proof.
  split; [exact codeUnitCompare_total|].
  destruct (catalog_names_normalised JS.codeUnitCompare "Corolla"
              Samples.corollaResults codeUnitCompare_total)
    as (_ & _ & Hsorted & _ & _ & _ & Hnames).
  split; [exact Hsorted|exact Hnames].
Defined.

(** ** The projection *)

Section Projection.
Import JS Chart.

Lemma mapM_Forall2 {A B} (f : A -> result B) (l : list A) (ys : list B) :
  mapM f l = Ok ys <-> Forall2 (fun x y => f x = Ok y) l ys.
Proof.
  revert ys. induction l as [|x l IH]; intros ys; simpl.
  - split.
    + intros [= <-]. constructor.
    + intros H. inversion H. reflexivity.
  - split.
    + destruct (f x) as [y|] eqn:Hx; simpl; [|discriminate].
      destruct (mapM f l) as [ys'|] eqn:Hl; simpl; [|discriminate].
      intros [= <-]. constructor; [exact Hx|]. now apply IH.
    + intros H. inversion H as [|? y ? ys' Hx Hl]; subst.
      rewrite Hx. simpl. apply IH in Hl. now rewrite Hl.
Qed.

Lemma mapM_total {A B} (f : A -> result B) (l : list A) :
  (forall x, exists y, f x = Ok y) -> exists ys, mapM f l = Ok ys.
Proof.
  intros Hf. induction l as [|x l [ys IH]]; simpl; [eauto|].
  destruct (Hf x) as [y ->]. rewrite IH. simpl. eauto.
Qed.

Variable currentYear : Z.
Variable data : PredictionData.

(** The callback never throws: each read of the price range is behind
    the test that the price range is there. *)
Lemma chartPoint_ok (k : nat) :
  chartPoint currentYear data k
  = Ok {| year := currentYear + Z.of_nat k;
          predictedValue := (predicted_value data * (85 # 100) ^ Z.of_nat k)%Q;
          meanValue :=
            match mean_value data with
            | Some m => if Qeq_bool m 0 then None
                        else Some (m * (85 # 100) ^ Z.of_nat k)%Q
            | None => None
            end;
          lowRange :=
            option_map (fun r => (low r * (85 # 100) ^ Z.of_nat k)%Q) (price_range data);
          highRange :=
            option_map (fun r => (high r * (85 # 100) ^ Z.of_nat k)%Q) (price_range data) |}.
Proof.
  unfold chartPoint, Math_pow, truthy_number, truthy_obj.
  destruct (mean_value data) as [m|], (price_range data) as [r|];
    try destruct (Qeq_bool m 0); reflexivity.
Qed.

Lemma chartData_ok :
  exists pts,
    chartData currentYear data = Ok pts
    /\ List.length pts = 10%nat
    /\ forall k pt, pts !! k = Some pt -> chartPoint currentYear data k = Ok pt.
Proof.
  destruct (mapM_total (chartPoint currentYear data) (seq 0 10)) as [pts Hpts].
  { intros k. rewrite chartPoint_ok. eauto. }
  exists pts. split; [exact Hpts|].
  apply mapM_Forall2 in Hpts. split.
  - symmetry. apply (Forall2_length _ _ _ Hpts).
  - intros k pt Hk.
    destruct (Forall2_lookup_r _ _ _ _ _ Hpts Hk) as (i & Hi & Hf).
    apply lookup_seq in Hi as [-> _]. exact Hf.
Qed.

Lemma chartData_lookup (pts : list ChartPoint) (k : nat) :
  chartData currentYear data = Ok pts -> (k < 10)%nat ->
  exists pt, pts !! k = Some pt /\ chartPoint currentYear data k = Ok pt.
Proof.
  intros Hpts Hk. apply mapM_Forall2 in Hpts.
  destruct (Forall2_lookup_l _ _ _ k k Hpts) as (pt & Hpt & Hf).
  { apply lookup_seq. lia. }
  eauto.
Qed.

End Projection.

Section ProjectionClaims.
Import JS Chart.

(** C1, as the code has it. For every valuation and every offset k in
    0..9 the chart point at k carries the year [currentYear + k] and the
    predicted value times 0.85^k; its low and high values are the low and
    high of the price range times the same 0.85^k when the price range is
    there; its mean value is the mean times the same 0.85^k when the mean
    is there and is not zero, and is undefined otherwise. *)
Theorem projection_point_shared_factor
    (currentYear : Z) (data : PredictionData) (k : nat) (Hk : (k < 10)%nat) :
  exists pts pt,
    chartData currentYear data = Ok pts
    /\ pts !! k = Some pt
    /\ year pt = currentYear + Z.of_nat k
    /\ predictedValue pt = (predicted_value data * (85 # 100) ^ Z.of_nat k)%Q
    /\ meanValue pt
       = match mean_value data with
         | Some m => if Qeq_bool m 0 then None
                     else Some (m * (85 # 100) ^ Z.of_nat k)%Q
         | None => None
         end
    /\ lowRange pt
       = option_map (fun r => (low r * (85 # 100) ^ Z.of_nat k)%Q) (price_range data)
    /\ highRange pt
       = option_map (fun r => (high r * (85 # 100) ^ Z.of_nat k)%Q) (price_range data).
Proof.
  destruct (chartData_ok currentYear data) as (pts & Hpts & _ & _).
  destruct (chartData_lookup currentYear data pts k Hpts Hk) as (pt & Hpt & Hf).
  exists pts, pt. rewrite chartPoint_ok in Hf. injection Hf as <-.
  repeat split; assumption.
Qed.

(** C1, as stated, fails for a mean that is present and zero: the chart
    point has no mean value where the claim puts 0 x 0.85^k. *)
Lemma projection_drops_zero_mean :
  ~ (forall (currentYear : Z) (data : PredictionData) (k : nat)
            (pts : list ChartPoint) (pt : ChartPoint),
        (k < 10)%nat ->
        chartData currentYear data = Ok pts ->
        pts !! k = Some pt ->
        meanValue pt
        = option_map (fun m => (m * (85 # 100) ^ Z.of_nat k)%Q) (mean_value data)).
Proof.
  intros H.
  destruct (chartData_ok 2026 Samples.zeroMean) as (pts & Hpts & _ & _).
  destruct (chartData_lookup 2026 Samples.zeroMean pts 0 Hpts) as (pt & Hpt & Hf);
    [lia|].
  specialize (H 2026 Samples.zeroMean 0%nat pts pt ltac:(lia) Hpts Hpt).
  rewrite chartPoint_ok in Hf. injection Hf as <-.
  simpl in H. discriminate H.
Qed.

End ProjectionClaims.

(** The point of the Camry valuation five years on. *)
Lemma projection_point_shared_factor_witness :
  (5 < 10)%nat
  /\ exists pts pt,
      Chart.chartData 2026 Samples.camryData = Chart.Ok pts
      /\ pts !! 5%nat = Some pt
      /\ Chart.year pt = 2026 + Z.of_nat 5
      /\ Chart.predictedValue pt = (17955 * (85 # 100) ^ Z.of_nat 5)%Q
      /\ Chart.meanValue pt = Some ((18000 # 1) * (85 # 100) ^ Z.of_nat 5)%Q
      /\ Chart.lowRange pt = Some (16000 * (85 # 100) ^ Z.of_nat 5)%Q
      /\ Chart.highRange pt = Some (19500 * (85 # 100) ^ Z.of_nat 5)%Q.
Proof.
  split; [lia|].
  apply (projection_point_shared_factor 2026 Samples.camryData 5). lia.
Defined.

(** ** The depreciation curve *)

Section Curve.
Import JS Chart.
Open Scope Q_scope.

Lemma factor_pos (k : nat) : 0 < (85 # 100) ^ Z.of_nat k.
Proof. apply Qpower_0_lt. reflexivity. Qed.

Lemma factor_succ (k : nat) :
  (85 # 100) ^ Z.of_nat (S k) == (85 # 100) * (85 # 100) ^ Z.of_nat k.
Proof.
  rewrite Nat2Z.inj_succ, <- Z.add_1_l.
  rewrite Qpower_plus by discriminate. reflexivity.
Qed.

Lemma factor_step (k : nat) : (85 # 100) ^ Z.of_nat (S k) < (85 # 100) ^ Z.of_nat k.
Proof.
  rewrite factor_succ. pose proof (factor_pos k) as Hk.
  rewrite <- (Qmult_1_l ((85 # 100) ^ Z.of_nat k)) at 2.
  apply Qmult_lt_compat_r; [exact Hk|reflexivity].
Qed.

Lemma factor_decreasing (i j : nat) :
  (i < j)%nat -> (85 # 100) ^ Z.of_nat j < (85 # 100) ^ Z.of_nat i.
Proof.
  induction 1 as [|j Hij IH].
  - apply factor_step.
  - eapply Qlt_trans; [apply factor_step|exact IH].
Qed.

Lemma factor_nonincreasing (i j : nat) :
  (i <= j)%nat -> (85 # 100) ^ Z.of_nat j <= (85 # 100) ^ Z.of_nat i.
Proof.
  intros Hij. destruct (Nat.eq_dec i j) as [->|Hne]; [apply Qle_refl|].
  apply Qlt_le_weak, factor_decreasing. lia.
Qed.

(** A value scaled by a smaller factor is no farther from zero. *)
Lemma scale_towards_zero (x : Q) (i j : nat) :
  (i <= j)%nat ->
  towards_zero (x * (85 # 100) ^ Z.of_nat i) (x * (85 # 100) ^ Z.of_nat j).
Proof.
  intros Hij. pose proof (factor_pos i) as Hi. pose proof (factor_pos j) as Hj.
  pose proof (factor_nonincreasing i j Hij) as Hle.
  apply Qlt_le_weak in Hj.
  split; intros Hx.
  - assert (H0 : 0 <= x).
    { apply (Qmult_le_r _ _ _ Hi). now rewrite Qmult_0_l. }
    split; [now apply Qmult_le_0_compat|].
    rewrite !(Qmult_comm x). now apply Qmult_le_compat_r.
  - assert (H0 : x <= 0).
    { apply (Qmult_le_r _ _ _ Hi). now rewrite Qmult_0_l. }
    assert (Hn : 0 <= - x).
    { apply (Qplus_le_l _ _ x). ring_simplify. exact H0. }
    assert (Hflip : forall f, x * f == - (f * - x)) by (intros f; ring).
    split.
    + rewrite (Hflip ((85 # 100) ^ Z.of_nat i)), (Hflip ((85 # 100) ^ Z.of_nat j)).
      apply Qopp_le_compat. now apply Qmult_le_compat_r.
    + rewrite (Hflip ((85 # 100) ^ Z.of_nat j)).
      change 0 with (- 0). apply Qopp_le_compat. now apply Qmult_le_0_compat.
Qed.


End Curve.


(** On doubles the ten factors [Math.pow(0.85, k)] are positive and each
    is below the one before it. *)
Lemma double_factors_decrease :
  List.map (fun k => PrimFloat.ltb (Double.Math_pow Double.rate (S k))
                       (Double.Math_pow Double.rate k)
                     && PrimFloat.ltb PrimFloat.zero (Double.Math_pow Double.rate (S k)))
    (seq 0 9)
  = List.repeat true 9.
Proof. vm_compute. reflexivity. Qed.


(** ** Truthiness of the mean and of the predicted value *)

Section Truthiness.
Import JS Chart.

Lemma mapM_ext {A B} (f g : A -> result B) (l : list A) :
  (forall x, f x = g x) -> mapM f l = mapM g l.
Proof.
  intros Hfg. induction l as [|x l IH]; simpl; [reflexivity|].
  now rewrite Hfg, IH.
Qed.

Lemma PredictionChart_lines (currentYear : Z) (data : PredictionData) (isLoading : bool) :
  exists title pts breakdown,
    PredictionChart currentYear (Some data) isLoading
    = Ok (ChartView isLoading title pts (seriesLines data) breakdown)
    /\ chartData currentYear data = Ok pts
    /\ breakdownText data = Ok breakdown.
Proof.
  destruct (chartData_ok currentYear data) as (pts & Hpts & _).
  unfold PredictionChart. rewrite Hpts. cbn [bind].
  assert (Hb : exists breakdown, breakdownText data = Ok breakdown).
  { unfold breakdownText, truthy_obj, truthy_str.
    destruct (price_range data) as [r|], (confidence data) as [c|];
      try destruct (truthy_string c); cbn; eauto. }
  destruct Hb as [breakdown Hb].
  rewrite Hb. cbn [bind]. eauto 6.
Qed.

(** C9. A mean value that is present and equal to zero is treated as
    an absent one: the chart points are those of the valuation without
    the mean, each with an undefined mean value, and the component
    renders what it renders without the mean, with no market-average
    series. A predicted value equal to zero gives ten predicted values
    equal to zero. *)
Theorem zero_mean_treated_as_absent
    (currentYear : Z) (data : PredictionData) (isLoading : bool) :
  (forall m, mean_value data = Some m -> m == 0 ->
     chartData currentYear data = chartData currentYear (withoutMean data)
     /\ (forall pts k pt, chartData currentYear data = Ok pts ->
           pts !! k = Some pt -> meanValue pt = None)
     /\ ~ List.In meanLine (seriesLines data)
     /\ PredictionChart currentYear (Some data) isLoading
        = PredictionChart currentYear (Some (withoutMean data)) isLoading)
  /\ (predicted_value data == 0 ->
      exists pts, chartData currentYear data = Ok pts
        /\ List.length pts = 10%nat
        /\ forall k pt, pts !! k = Some pt -> predictedValue pt == 0).
Proof.
  split.
  - intros m Hm Hz. apply Qeq_bool_iff in Hz.
    assert (Hpoint : forall k,
      chartPoint currentYear data k = chartPoint currentYear (withoutMean data) k).
    { intros k. rewrite !chartPoint_ok. simpl. now rewrite Hm, Hz. }
    assert (Hdata : chartData currentYear data = chartData currentYear (withoutMean data))
      by (apply mapM_ext, Hpoint).
    assert (Hlines : seriesLines data = seriesLines (withoutMean data)).
    { unfold seriesLines, truthy_num, truthy_number. simpl. now rewrite Hm, Hz. }
    split; [exact Hdata|]. split; [|split].
    + intros pts k pt Hpts Hpt.
      destruct (chartData_ok currentYear data) as (pts' & Hpts' & _ & Hat).
      rewrite Hpts in Hpts'. injection Hpts' as <-.
      apply Hat in Hpt. rewrite chartPoint_ok, Hm, Hz in Hpt. now injection Hpt as <-.
    + rewrite Hlines. unfold seriesLines, truthy_num, truthy_obj. simpl.
      destruct (price_range data); simpl; intros H;
        repeat (destruct H as [H|H]; [discriminate H|]); exact H.
    + unfold PredictionChart. rewrite Hdata, Hlines. reflexivity.
  - intros Hz.
    destruct (chartData_ok currentYear data) as (pts & Hpts & Hlen & Hat).
    exists pts. split; [exact Hpts|]. split; [exact Hlen|].
    intros k pt Hpt. apply Hat in Hpt. rewrite chartPoint_ok in Hpt.
    injection Hpt as <-. simpl. rewrite Hz. apply Qmult_0_l.
Qed.

End Truthiness.

(** The valuation with the mean 0 renders as the valuation without a mean,
    and the valuation predicted at 0 has a flat series. *)
Lemma zero_mean_treated_as_absent_witness :
  (Chart.mean_value Samples.zeroMean = Some (0 # 1) /\ 0 # 1 == 0
   /\ Chart.PredictionChart 2026 (Some Samples.zeroMean) false
      = Chart.PredictionChart 2026 (Some (withoutMean Samples.zeroMean)) false
   /\ ~ List.In meanLine (Chart.seriesLines Samples.zeroMean))
  /\ (Chart.predicted_value Samples.zeroPredicted == 0
      /\ exists pts, Chart.chartData 2026 Samples.zeroPredicted = Chart.Ok pts
           /\ List.length pts = 10%nat
           /\ forall k pt, pts !! k = Some pt -> Chart.predictedValue pt == 0).
Proof.
  split.
  - destruct (zero_mean_treated_as_absent 2026 Samples.zeroMean false) as [Hmean _].
    destruct (Hmean (0 # 1) eq_refl eq_refl) as (_ & _ & Hline & Hview).
    repeat split; assumption.
  - destruct (zero_mean_treated_as_absent 2026 Samples.zeroPredicted false) as [_ Hpred].
    split; [reflexivity|]. apply Hpred. reflexivity.
Defined.

(** ** Missing parts of the valuation *)

Section MissingParts.
Import JS Chart.

(** C7, as the code has it. For every valuation without a price range
    the component returns its view without an error: ten chart points,
    each with the projected predicted value and with undefined low and
    high values, and the predicted-value series with neither of the two
    range series; the market-average series is drawn next to it exactly
    when the mean value is present and not zero. *)
Theorem no_price_range_no_range_series
    (currentYear : Z) (data : PredictionData) (isLoading : bool)
    (Hnone : price_range data = None) :
  exists title pts lines breakdown,
    PredictionChart currentYear (Some data) isLoading
    = Ok (ChartView isLoading title pts lines breakdown)
    /\ List.length pts = 10%nat
    /\ (forall k pt, pts !! k = Some pt ->
          predictedValue pt = (predicted_value data * (85 # 100) ^ Z.of_nat k)%Q
          /\ lowRange pt = None /\ highRange pt = None)
    /\ lines = predictedLine :: (if truthy_num (mean_value data) then [meanLine] else [])
    /\ ~ List.In lowLine lines
    /\ ~ List.In highLine lines.
Proof.
  destruct (PredictionChart_lines currentYear data isLoading)
    as (title & pts & breakdown & Hview & Hpts & _).
  destruct (chartData_ok currentYear data) as (pts' & Hpts' & Hlen & Hat).
  rewrite Hpts in Hpts'. injection Hpts' as <-.
  exists title, pts, (seriesLines data), breakdown.
  split; [exact Hview|]. split; [exact Hlen|]. split.
  { intros k pt Hpt. apply Hat in Hpt. rewrite chartPoint_ok, Hnone in Hpt.
    injection Hpt as <-. repeat split. }
  unfold seriesLines. rewrite Hnone. cbn [truthy_obj].
  destruct (truthy_num (mean_value data)); cbn [app].
  - repeat split; intros H;
      repeat (destruct H as [H|H]; [discriminate H|]); exact H.
  - repeat split; intros H;
      repeat (destruct H as [H|H]; [discriminate H|]); exact H.
Qed.

(** C7, as stated, fails for a valuation that has a mean and no price
    range: the market-average series is drawn too. *)
Lemma no_price_range_mean_series_drawn :
  ~ (forall (currentYear : Z) (data : PredictionData) (isLoading : bool)
            (title : string) (pts : list ChartPoint) (lines : list Line)
            (breakdown : list string),
        price_range data = None ->
        PredictionChart currentYear (Some data) isLoading
        = Ok (ChartView isLoading title pts lines breakdown) ->
        lines = [ predictedLine ]).
Proof.
  intros H.
  destruct (PredictionChart_lines 2026 Samples.noRange false)
    as (title & pts & breakdown & Hview & _).
  specialize (H 2026 Samples.noRange false title pts _ breakdown eq_refl Hview).
  discriminate H.
Qed.

(** C10. Without the factors the breakdown does not fail: the base
    value defaults to 0 and the three multipliers to 1, and the rows
    read $0 and 0.0%. *)
Theorem missing_factors_default_breakdown
    (currentYear : Z) (data : PredictionData) (isLoading : bool)
    (Hnone : factors data = None) :
  factorsOf data
  = {| base_value := 0; trim_multiplier := 1;
       condition_multiplier := 1; mileage_multiplier := 1 |}
  /\ exists title pts lines breakdown,
      PredictionChart currentYear (Some data) isLoading
      = Ok (ChartView isLoading title pts lines breakdown)
      /\ firstn 4 breakdown
         = [ "Base Value: $0"; "Trim Adjustment: 0.0%";
             "Condition Impact: 0.0%"; "Mileage Impact: 0.0%" ].
Proof.
  assert (Hf : factorsOf data = defaultFactors) by (unfold factorsOf; now rewrite Hnone).
  split; [exact Hf|].
  destruct (PredictionChart_lines currentYear data isLoading)
    as (title & pts & breakdown & Hview & _ & Hb).
  exists title, pts, (seriesLines data), breakdown.
  split; [exact Hview|].
  unfold breakdownText in Hb. rewrite Hf in Hb.
  destruct (truthy_obj (price_range data)), (truthy_str (confidence data)),
    (price_range data), (confidence data);
    cbn [bind prop] in Hb; try discriminate Hb; injection Hb as <-; reflexivity.
Qed.

End MissingParts.

(** The valuation without a price range, in 2026. *)
Lemma no_price_range_no_range_series_witness :
  Chart.price_range Samples.noRange = None
  /\ exists title pts lines breakdown,
      Chart.PredictionChart 2026 (Some Samples.noRange) false
      = Chart.Ok (Chart.ChartView false title pts lines breakdown)
      /\ List.length pts = 10%nat
      /\ (forall k pt, pts !! k = Some pt ->
            Chart.predictedValue pt = (17955 * (85 # 100) ^ Z.of_nat k)%Q
            /\ Chart.lowRange pt = None /\ Chart.highRange pt = None)
      /\ lines = [ predictedLine; meanLine ]
      /\ ~ List.In lowLine lines
      /\ ~ List.In highLine lines.
Proof.
  split; [reflexivity|].
  apply (no_price_range_no_range_series 2026 Samples.noRange false). reflexivity.
Defined.

(** The valuation without factors, in 2026. *)
Lemma missing_factors_default_breakdown_witness :
  Chart.factors Samples.noFactors = None
  /\ exists title pts lines breakdown,
      Chart.PredictionChart 2026 (Some Samples.noFactors) false
      = Chart.Ok (Chart.ChartView false title pts lines breakdown)
      /\ firstn 4 breakdown
         = [ "Base Value: $0"; "Trim Adjustment: 0.0%";
             "Condition Impact: 0.0%"; "Mileage Impact: 0.0%" ].
Proof.
  split; [reflexivity|].
  apply (missing_factors_default_breakdown 2026 Samples.noFactors false). reflexivity.
Defined.

(** * Further properties of the components *)

(** ** The three handlers in an arbitrary environment *)

Section AnyEnvironment.
Import Form.
Variable localeCompare : string -> string -> Z.
Variable E : env.

(** X1. Whatever the catalog service answers, [fetchModels] ends
    normally; it makes one request when a make is selected and none
    otherwise, it leaves [loadingModels] false after a request, and it
    touches neither the form object nor the trims, the years, the
    submission flag or the valuation. *)
Theorem fetchModels_settles (st : State) :
  let r := run E (fetchModels localeCompare st) in
  let selected := truthy (formData st !! "make") in
  fst r = Normal tt
  /\ network_calls E (fetchModels localeCompare st) = (if selected then 1 else 0)%nat
  /\ loadingModels (snd r) = (if selected then false else loadingModels st)
  /\ (selected = false -> models (snd r) = [] /\ error (snd r) = error st)
  /\ formData (snd r) = formData st
  /\ trims (snd r) = trims st
  /\ years (snd r) = years st
  /\ loading (snd r) = loading st
  /\ predictionData (snd r) = predictionData st.
Proof.
  unfold fetchModels, bind, getFormData. cbn [async_bind].
  destruct (truthy (formData st !! "make")); cbn [negb].
  - unfold finally, try_catch, await, setLoadingModels.
    cbn [async_bind run network_calls formData].
    destruct (E _ (GetModelsForMake (toString (formData st !! "make")))) as [Results|].
    + destruct (formData st !! "make") as [[make|n]|]; [| destruct Results | destruct Results];
        cbn; repeat split; discriminate.
    + cbn. repeat split; discriminate.
  - cbn. repeat split.
Qed.

(** X2. Whatever the trims endpoint answers, [fetchTrims] ends normally;
    it makes one request when a make and a model are selected and none
    otherwise, in which case the trims are emptied and the message is
    kept; it leaves [loadingTrims] false after a request and touches
    neither the form object nor the models, the years, the submission
    flag or the valuation. *)
Theorem fetchTrims_settles (st : State) :
  let r := run E (fetchTrims st) in
  let selected := truthy (formData st !! "make") && truthy (formData st !! "model") in
  fst r = Normal tt
  /\ network_calls E (fetchTrims st) = (if selected then 1 else 0)%nat
  /\ loadingTrims (snd r) = (if selected then false else loadingTrims st)
  /\ (selected = false -> trims (snd r) = [] /\ error (snd r) = error st)
  /\ formData (snd r) = formData st
  /\ models (snd r) = models st
  /\ years (snd r) = years st
  /\ loading (snd r) = loading st
  /\ predictionData (snd r) = predictionData st.
Proof.
  unfold fetchTrims, bind, getFormData. cbn [async_bind].
  destruct (truthy (formData st !! "make")), (truthy (formData st !! "model"));
    cbn [negb orb andb].
  - unfold finally, try_catch, await, setLoadingTrims.
    cbn [async_bind run network_calls formData].
    destruct (E _ (GetTrims (toString (formData st !! "make"))
                     (toString (formData st !! "model")))) as [[l|]|];
      cbn; repeat split; discriminate.
  - cbn. repeat split.
  - cbn. repeat split.
  - cbn. repeat split.
Qed.

(** X3. Whatever the valuation endpoint answers, [handleSubmit] ends
    normally with [loading] false, after one request, or none when the
    form has no year to send; the valuation on display is then the answer
    of the endpoint or the one there was, and the form object and the
    three lists are as before. *)
Theorem handleSubmit_settles (st : State) :
  let r := run E (handleSubmit st) in
  fst r = Normal tt
  /\ network_calls E (handleSubmit st)
     = match formData st !! "year" with Some _ => 1%nat | None => 0%nat end
  /\ loading (snd r) = false
  /\ (predictionData (snd r) = predictionData st
      \/ exists data, E _ (PostPredict (formData st)) = Resolved data
                      /\ predictionData (snd r) = Some data)
  /\ formData (snd r) = formData st
  /\ models (snd r) = models st
  /\ trims (snd r) = trims st
  /\ years (snd r) = years st.
Proof.
  unfold handleSubmit, bind, finally, try_catch, getFormData, setLoading, setError.
  cbn [async_bind run network_calls formData fst snd].
  destruct (formData st !! "year"); cbn [async_bind run network_calls ret throw].
  - unfold ret, await. cbn [async_bind run network_calls].
    destruct (E _ (PostPredict (formData st))) as [data|] eqn:HE; cbn.
    + repeat split. right. exists data. split; reflexivity.
    + repeat split. left. reflexivity.
  - cbn. repeat split. left. reflexivity.
Qed.

End AnyEnvironment.

(** ** The three handlers when the request succeeds *)

Section Answers.
Import Form.
Variable localeCompare : string -> string -> Z.
Variable E : env.

(** X4. When the catalog service answers for a selected make, the models
    are the normalised entries of the answer, [loadingModels] is false
    again, and a message left by an earlier failure is still there. *)
Theorem catalog_answer_loaded (st : State) (make : string) (Results : list NhtsaModel)
    (Hmake : formData st !! "make" = Some (VStr make))
    (Hselected : make <> "")
    (Hanswer : E _ (GetModelsForMake make) = Resolved Results) :
  let r := run E (fetchModels localeCompare st) in
  fst r = Normal tt
  /\ models (snd r) = modelsData localeCompare make Results
  /\ error (snd r) = error st
  /\ loadingModels (snd r) = false.
Proof.
  unfold fetchModels, bind, getFormData. cbn [async_bind].
  rewrite Hmake. destruct make as [|c make]; [contradiction|].
  cbn [truthy JS.truthy_string negb].
  unfold finally, try_catch, await, setLoadingModels. cbn [async_bind run formData].
  cbn [toString]. rewrite Hanswer. cbn [async_bind run ret].
  unfold ret, setModels. cbn. repeat split.
Qed.

(** X5. When the trims endpoint answers for a selected make and model,
    the trims are the array of the answer, or none when the answer holds
    no array; in both cases no message is set and [loadingTrims] is false
    again. *)
Theorem trims_answer_loaded (st : State) (data : option (list string))
    (Hmake : truthy (formData st !! "make") = true)
    (Hmodel : truthy (formData st !! "model") = true)
    (Hanswer : E _ (GetTrims (toString (formData st !! "make"))
                       (toString (formData st !! "model"))) = Resolved data) :
  let r := run E (fetchTrims st) in
  fst r = Normal tt
  /\ trims (snd r) = match data with Some l => l | None => [] end
  /\ error (snd r) = error st
  /\ loadingTrims (snd r) = false.
Proof.
  unfold fetchTrims, bind, getFormData. cbn [async_bind].
  rewrite Hmake, Hmodel. cbn [negb orb].
  unfold finally, try_catch, await, setLoadingTrims. cbn [async_bind run formData].
  rewrite Hanswer. destruct data; cbn; repeat split.
Qed.

(** X6. When the valuation endpoint answers, the answer becomes the
    valuation on display, the message of an earlier failure is cleared
    and [loading] is false again. *)
Theorem valuation_answer_displayed (st : State) (data : Chart.PredictionData)
    (Hyear : is_Some (formData st !! "year"))
    (Hanswer : E _ (PostPredict (formData st)) = Resolved data) :
  let r := run E (handleSubmit st) in
  fst r = Normal tt
  /\ predictionData (snd r) = Some data
  /\ error (snd r) = ""
  /\ loading (snd r) = false.
Proof.
  destruct Hyear as [y Hy].
  unfold handleSubmit, bind, finally, try_catch, getFormData, setLoading, setError.
  cbn [async_bind run formData fst snd]. rewrite Hy.
  unfold ret, await. cbn [async_bind run]. rewrite Hanswer. cbn. repeat split.
Qed.

End Answers.

(** The Honda form, online: the two entries are loaded as Accord and Civic
    under the old message. *)
Lemma catalog_answer_loaded_witness :
  Form.formData Cases.hondaForm !! "make" = Some (Form.VStr "Honda")
  /\ "Honda" <> ""
  /\ List.map Form.name
       (Form.models (snd (Form.run Cases.online
          (Form.fetchModels JS.codeUnitCompare Cases.hondaForm))))
     = [ "Accord"; "Civic" ]
  /\ Form.error (snd (Form.run Cases.online
          (Form.fetchModels JS.codeUnitCompare Cases.hondaForm)))
     = "Failed to load trim options. Please try again.".
Proof.
  assert (Hne : "Honda" <> "") by discriminate.
  destruct (catalog_answer_loaded JS.codeUnitCompare Cases.online Cases.hondaForm
              "Honda" Cases.civicResults eq_refl Hne eq_refl) as (_ & Hm & He & _).
  split; [reflexivity|]. split; [exact Hne|]. split.
  - rewrite Hm. reflexivity.
  - exact He.
Defined.

(** The Camry form, online: the two trims of the answer are loaded. *)
Lemma trims_answer_loaded_witness :
  Form.truthy (Form.formData Samples.camryForm !! "make") = true
  /\ Form.truthy (Form.formData Samples.camryForm !! "model") = true
  /\ Form.trims (snd (Form.run Cases.online (Form.fetchTrims Samples.camryForm)))
     = [ "LX"; "EX" ].
Proof.
  destruct (trims_answer_loaded Cases.online Samples.camryForm (Some [ "LX"; "EX" ])
              eq_refl eq_refl eq_refl) as (_ & Ht & _).
  split; [reflexivity|]. split; [reflexivity|]. exact Ht.
Defined.

(** The Honda form, online: the valuation arrives and the old message
    goes. *)
Lemma valuation_answer_displayed_witness :
  is_Some (Form.formData Cases.hondaForm !! "year")
  /\ Form.predictionData (snd (Form.run Cases.online (Form.handleSubmit Cases.hondaForm)))
     = Some Cases.civicData
  /\ Form.error (snd (Form.run Cases.online (Form.handleSubmit Cases.hondaForm))) = "".
Proof.
  assert (Hy : is_Some (Form.formData Cases.hondaForm !! "year"))
    by (exists (Form.VNum 2026); reflexivity).
  destruct (valuation_answer_displayed Cases.online Cases.hondaForm Cases.civicData
              Hy eq_refl) as (_ & Hp & He & _).
  split; [exact Hy|]. split; [exact Hp|exact He].
Defined.

(** ** The change handler and what depends on the form *)

Section ChangeHandler.
Import Form.
Variable currentYear : Z.




(** X8. Repeating a change gives the state the first change gave. *)
Theorem change_twice_is_change_once (name : string) (v : value) (st : State) :
  exists st',
    handleChange currentYear name v st = Done (Normal tt, st')
    /\ handleChange currentYear name v st' = Done (Normal tt, st').
Proof.
  assert (Hfd : newFormData currentYear name v (newFormData currentYear name v (formData st))
                = newFormData currentYear name v (formData st)).
  { apply map_eq. intros k. unfold newFormData.
    destruct (String.eqb name "make"); [|destruct (String.eqb name "model")];
      rewrite !lookup_insert; repeat case_decide; congruence. }
  eexists. split; [reflexivity|].
  unfold handleChange, setFormData. cbn [formData loading error models trims years
    loadingModels loadingTrims predictionData].
  rewrite Hfd. reflexivity.
Qed.

(** X9. After a change of the make, whatever the state before and the
    make chosen, the submit button and the trim and year selects are
    disabled, and the model select is enabled exactly when the new make is
    not empty and the catalog is not loading. *)
Theorem make_change_disables_downstream (v : value) (st : State) :
  exists st',
    handleChange currentYear "make" v st = Done (Normal tt, st')
    /\ Page.submitDisabled st' = true
    /\ Page.trimDisabled st' = true
    /\ Page.yearDisabled st' = true
    /\ Page.modelDisabled st' = negb (truthy (Some v)) || loadingModels st.
Proof.
  eexists. split; [reflexivity|].
  unfold Page.submitDisabled, Page.trimDisabled, Page.yearDisabled, Page.modelDisabled.
  cbn [formData loading loadingModels loadingTrims]. rewrite newFormData_make.
  assert (Hmodel : (<["year" := VNum currentYear]> (<["trim" := VStr ""]>
            (<["model" := VStr ""]> (<["make" := v]> (formData st))))) !! "model"
          = Some (VStr "")) by (by simplify_map_eq).
  assert (Hmk : (<["year" := VNum currentYear]> (<["trim" := VStr ""]>
            (<["model" := VStr ""]> (<["make" := v]> (formData st))))) !! "make"
          = Some v) by (by simplify_map_eq).
  rewrite Hmodel, Hmk. cbn [truthy JS.truthy_string negb orb].
  repeat split. rewrite orb_true_r. reflexivity.
Qed.

End ChangeHandler.

Section AfterChange.
Import Form.
Variable currentYear : Z.

Lemma generateYears_run (st : State) :
  generateYears currentYear st
  = Done (Normal tt,
      {| formData := formData st; loading := loading st; error := error st;
         models := models st; trims := trims st;
         years := if truthy (formData st !! "model")
                  then List.map (yearAt currentYear) (seq 0 30) else [];
         loadingModels := loadingModels st; loadingTrims := loadingTrims st;
         predictionData := predictionData st |}).
Proof.
  unfold generateYears, bind, getFormData. cbn [async_bind].
  destruct (truthy (formData st !! "model")); unfold setYears; [|reflexivity].
  unfold JS.Array_from. now rewrite (Array_sort_id _ _ (years_in_order currentYear 0 30)).
Qed.

(** X10. After a change of the make the effect that fetches the trims
    and the effect that builds the years both end at once, without a
    request, the one with no trims and the other with no years. *)
Theorem make_change_empties_trims_and_years (v : value) (st : State) :
  exists st1 st2 st3,
    handleChange currentYear "make" v st = Done (Normal tt, st1)
    /\ fetchTrims st1 = Done (Normal tt, st2)
    /\ trims st2 = []
    /\ generateYears currentYear st1 = Done (Normal tt, st3)
    /\ years st3 = [].
Proof.
  destruct (handleChange_done currentYear "make" v st) as (st1 & Hrun & Hfd & _).
  assert (Hmodel : truthy (formData st1 !! "model") = false).
  { rewrite Hfd, newFormData_make. by simplify_map_eq. }
  exists st1. eexists. eexists. split; [exact Hrun|].
  split; [|split; [|split; [apply generateYears_run|]]].
  - unfold fetchTrims, bind, getFormData. cbn [async_bind].
    rewrite Hmodel. cbn [negb]. rewrite orb_true_r. reflexivity.
  - reflexivity.
  - cbn [years]. now rewrite Hmodel.
Qed.

(** X11. After a change of the model to a non-empty value, and once the
    effect on the model has run, the year select is enabled, it offers
    30 years, and the year the form holds, the current one, is the first
    of them. *)
Theorem model_change_year_on_offer (v : value) (st : State)
    (Hv : truthy (Some v) = true) :
  exists st1 st2,
    handleChange currentYear "model" v st = Done (Normal tt, st1)
    /\ generateYears currentYear st1 = Done (Normal tt, st2)
    /\ Page.yearDisabled st2 = false
    /\ List.length (Page.yearOptions st2) = 30%nat
    /\ List.head (Page.yearOptions st2) = formData st2 !! "year"
    /\ formData st2 !! "year" = Some (VNum currentYear).
Proof.
  destruct (handleChange_done currentYear "model" v st) as (st1 & Hrun & Hfd & _).
  assert (Hmodel : formData st1 !! "model" = Some v).
  { rewrite Hfd, newFormData_model. by simplify_map_eq. }
  assert (Hyear : formData st1 !! "year" = Some (VNum currentYear)).
  { rewrite Hfd, newFormData_model. by simplify_map_eq. }
  exists st1. eexists. split; [exact Hrun|]. split; [apply generateYears_run|].
  unfold Page.yearDisabled, Page.yearOptions. cbn [formData years].
  rewrite Hmodel, Hv, Hyear. cbn [negb].
  split; [reflexivity|]. split; [reflexivity|]. split; [|reflexivity].
  cbn [seq List.map List.head yearAt year]. do 2 f_equal. lia.
Qed.

End AfterChange.

(** Choosing the Camry on the Honda form in 2026. *)
Lemma model_change_year_on_offer_witness :
  Form.truthy (Some (Form.VStr "Camry")) = true
  /\ exists st1 st2,
      Form.handleChange 2026 "model" (Form.VStr "Camry") Cases.hondaForm
      = Form.Done (Form.Normal tt, st1)
      /\ Form.generateYears 2026 st1 = Form.Done (Form.Normal tt, st2)
      /\ Page.yearDisabled st2 = false
      /\ List.length (Page.yearOptions st2) = 30%nat
      /\ List.head (Page.yearOptions st2) = Form.formData st2 !! "year"
      /\ Form.formData st2 !! "year" = Some (Form.VNum 2026).
Proof.
  split; [reflexivity|].
  apply (model_change_year_on_offer 2026 (Form.VStr "Camry") Cases.hondaForm). reflexivity.
Defined.

(** ** The names of the catalog *)

Section CatalogNames.
Import JS Form.

Lemma trimStart_clean (s : string) :
  match trimStart s with
  | EmptyString => True
  | String c _ => is_space c = false
  end.
Proof.
  induction s as [|c r IH]; [exact I|]. cbn [trimStart].
  destruct (is_space c) eqn:Hc; [exact IH|exact Hc].
Qed.

Lemma trimEnd_cons (c : ascii) (r : string) :
  trimEnd (String c r)
  = match trimEnd r with
    | EmptyString => if is_space c then EmptyString else String c EmptyString
    | r' => String c r'
    end.
Proof. reflexivity. Qed.

Lemma trimEnd_idem (s : string) : trimEnd (trimEnd s) = trimEnd s.
Proof.
  induction s as [|c r IH]; [reflexivity|].
  rewrite trimEnd_cons. destruct (trimEnd r) as [|c' r'] eqn:Hr.
  - destruct (is_space c) eqn:Hc; [reflexivity|].
    rewrite trimEnd_cons. cbn [trimEnd]. now rewrite Hc.
  - rewrite trimEnd_cons, IH. reflexivity.
Qed.

Lemma trimEnd_clean (s : string) :
  match s with
  | EmptyString => True
  | String c _ => is_space c = false
  end ->
  trimStart (trimEnd s) = trimEnd s.
Proof.
  destruct s as [|c r]; [reflexivity|]. intros Hc.
  rewrite trimEnd_cons. destruct (trimEnd r); rewrite ?Hc; cbn [trimStart]; now rewrite Hc.
Qed.

Lemma trim_idem (s : string) : trim (trim s) = trim s.
Proof.
  unfold trim. rewrite (trimEnd_clean (trimStart s) (trimStart_clean s)).
  apply trimEnd_idem.
Qed.

Lemma append_empty (s : string) : s ++ "" = s.
Proof. induction s as [|c s IH]; [reflexivity|]. exact (f_equal (String c) IH). Qed.

Lemma modelName_trimmed (make raw : string) :
  trim (modelName make raw) = modelName make raw.
Proof.
  unfold modelName.
  destruct (startsWith (toLowerCase (trim raw)) (toLowerCase make)); apply trim_idem.
Qed.

Lemma modelsData_In (localeCompare : string -> string -> Z) (make : string)
    (Results : list NhtsaModel) (model : CarModel) :
  List.In model (modelsData localeCompare make Results) ->
  name model <> "" /\ exists r, List.In r Results /\ model = toCarModel make r.
Proof.
  intros Hin. unfold modelsData in Hin.
  apply (Permutation_in _ (Array_sort_perm _ _)) in Hin.
  apply List.filter_In in Hin as [Hmap Hname].
  split; [now apply truthy_string_nonempty|].
  apply List.in_map_iff in Hmap as (r & <- & Hr). eauto.
Qed.

(** X12. Every model of the catalog has a name that is not empty and has
    no white space at either end, and there are at most as many models as
    entries in the answer; an answer without entries gives no model. *)
Theorem catalog_names_trimmed
    (localeCompare : string -> string -> Z) (make : string) (Results : list NhtsaModel) :
  List.Forall (fun model => name model <> "" /\ trim (name model) = name model)
    (modelsData localeCompare make Results)
  /\ (List.length (modelsData localeCompare make Results) <= List.length Results)%nat
  /\ modelsData localeCompare make [] = [].
Proof.
  split; [|split; [|reflexivity]].
  - apply List.Forall_forall. intros model Hin.
    apply modelsData_In in Hin as (Hne & r & _ & ->).
    split; [exact Hne|]. apply modelName_trimmed.
  - unfold modelsData. rewrite (Permutation_length (Array_sort_perm _ _)).
    etransitivity; [apply List.filter_length_le|]. now rewrite List.length_map.
Qed.

(** X13. An entry whose name is the make itself, in whatever case and
    with white space around it, gives no model: the catalog is the one
    of the answer without that entry. *)
Theorem catalog_drops_the_make_itself
    (localeCompare : string -> string -> Z) (make : string)
    (before_ after_ : list NhtsaModel) (r : NhtsaModel)
    (Hmake : toLowerCase (trim (Model_Name r)) = toLowerCase make) :
  modelName make (Model_Name r) = ""
  /\ modelsData localeCompare make (before_ ++ r :: after_)
     = modelsData localeCompare make (before_ ++ after_).
Proof.
  assert (Hname : modelName make (Model_Name r) = "").
  { apply (modelName_strips make (Model_Name r) (trim (Model_Name r)) "").
    - symmetry. apply append_empty.
    - exact Hmake. }
  split; [exact Hname|].
  unfold modelsData. rewrite !List.map_app, !List.filter_app. cbn [List.map List.filter].
  cbn [toCarModel name]. rewrite Hname. reflexivity.
Qed.

Lemma fetched_models_clean
    (localeCompare : string -> string -> Z) (E : env) (st : State) :
  List.Forall (fun model => name model <> "" /\ trim (name model) = name model)
    (models (snd (run E (fetchModels localeCompare st)))).
Proof.
  unfold fetchModels, bind, getFormData. cbn [async_bind].
  destruct (truthy (formData st !! "make")); cbn [negb]; [|constructor].
  unfold finally, try_catch, await, setLoadingModels. cbn [async_bind run formData].
  destruct (E _ (GetModelsForMake (toString (formData st !! "make")))) as [Results|];
    [|constructor].
  destruct (formData st !! "make") as [[make|n]|]; [| destruct Results | destruct Results];
    try constructor.
  cbn. apply List.Forall_forall. intros model Hin.
  apply modelsData_In in Hin as (Hne & r & _ & ->).
  split; [exact Hne|]. apply modelName_trimmed.
Qed.

(** X14. Whatever the catalog service answers and whatever the state
    before, the models the form holds after [fetchModels] all have a name
    that is not empty and has no white space at either end; so every
    value the model select then offers is the empty value or selects a
    model. *)
Theorem fetched_models_have_clean_names
    (localeCompare : string -> string -> Z) (E : env) (st : State) :
  let st' := snd (run E (fetchModels localeCompare st)) in
  List.Forall (fun model => name model <> "" /\ trim (name model) = name model)
    (models st')
  /\ List.Forall (fun v => v = VStr "" \/ truthy (Some v) = true) (Page.modelOptions st').
Proof.
  intros st'. pose proof (fetched_models_clean localeCompare E st) as Hclean.
  fold st' in Hclean. split; [exact Hclean|].
  unfold Page.modelOptions. constructor; [now left|].
  destruct (loadingModels st'); [constructor|].
  apply List.Forall_forall. intros v Hv.
  apply List.in_map_iff in Hv as (model & <- & Hin).
  rewrite List.Forall_forall in Hclean. destruct (Hclean model Hin) as [Hne _].
  right. now apply truthy_string_nonempty.
Qed.

End CatalogNames.

(** The entry "  COROLLA " of the make Corolla. *)
Lemma catalog_drops_the_make_itself_witness :
  JS.toLowerCase (JS.trim "  COROLLA ") = JS.toLowerCase "Corolla"
  /\ Form.modelsData JS.codeUnitCompare "Corolla"
       ([ {| Form.Model_ID := 1; Form.Model_Name := "Corolla Cross"; Form.Make_ID := 448 |} ]
        ++ {| Form.Model_ID := 2; Form.Model_Name := "  COROLLA "; Form.Make_ID := 448 |}
        :: [])
     = Form.modelsData JS.codeUnitCompare "Corolla"
        ([ {| Form.Model_ID := 1; Form.Model_Name := "Corolla Cross"; Form.Make_ID := 448 |} ]
         ++ []).
Proof.
  split; [reflexivity|].
  apply (catalog_drops_the_make_itself JS.codeUnitCompare "Corolla" _ []
           {| Form.Model_ID := 2; Form.Model_Name := "  COROLLA "; Form.Make_ID := 448 |}).
  reflexivity.
Defined.

(** ** The shape of the projection *)

Section ProjectionShape.
Import JS Chart.
Open Scope Q_scope.

Variable currentYear : Z.
Variable data : PredictionData.

(** X15. When the predicted value lies between the low and the high of
    the price range, every chart point has a low and a high value and
    its predicted value lies between them. *)
Theorem projection_keeps_prediction_in_range (r : PriceRange)
    (Hrange : price_range data = Some r)
    (Hlow : low r <= predicted_value data)
    (Hhigh : predicted_value data <= high r) :
  exists pts,
    chartData currentYear data = Ok pts
    /\ forall k pt, pts !! k = Some pt ->
         exists l h, lowRange pt = Some l /\ highRange pt = Some h
                     /\ l <= predictedValue pt /\ predictedValue pt <= h.
Proof.
  destruct (chartData_ok currentYear data) as (pts & Hpts & _ & Hat).
  exists pts. split; [exact Hpts|].
  intros k pt Hpt. apply Hat in Hpt. rewrite chartPoint_ok, Hrange in Hpt.
  injection Hpt as <-. cbn [lowRange highRange predictedValue option_map].
  do 2 eexists. split; [reflexivity|]. split; [reflexivity|].
  pose proof (factor_pos k) as Hk. apply Qlt_le_weak in Hk.
  split; apply Qmult_le_compat_r; assumption.
Qed.

(** X16. From one chart point to the next the year grows by one, a
    series that has a value keeps having one and a series that has none
    keeps having none, and no value moves away from zero or across it:
    after a value that is not negative comes one that is not negative and
    not greater, after a value that is not positive one that is not
    positive and not smaller. This holds of the predicted, the mean, the
    low and the high value alike. *)
Theorem projection_moves_towards_zero :
  exists pts,
    chartData currentYear data = Ok pts
    /\ forall k p q, pts !! k = Some p -> pts !! S k = Some q ->
         year q = (year p + 1)%Z
         /\ towards_zero (predictedValue p) (predictedValue q)
         /\ option_Forall2 towards_zero (meanValue p) (meanValue q)
         /\ option_Forall2 towards_zero (lowRange p) (lowRange q)
         /\ option_Forall2 towards_zero (highRange p) (highRange q).
Proof.
  destruct (chartData_ok currentYear data) as (pts & Hpts & _ & Hat).
  exists pts. split; [exact Hpts|].
  intros k p q Hp Hq. apply Hat in Hp, Hq. rewrite chartPoint_ok in Hp, Hq.
  injection Hp as <-. injection Hq as <-.
  cbn [year predictedValue meanValue lowRange highRange].
  assert (Hstep : forall x, towards_zero (x * (85 # 100) ^ Z.of_nat k)
                              (x * (85 # 100) ^ Z.of_nat (S k)))
    by (intros x; apply scale_towards_zero; lia).
  split; [lia|]. split; [apply Hstep|].
  split; [|split].
  - destruct (mean_value data) as [m|]; [destruct (Qeq_bool m 0)|];
      constructor; apply Hstep.
  - destruct (price_range data) as [r|]; constructor; apply Hstep.
  - destruct (price_range data) as [r|]; constructor; apply Hstep.
Qed.

(** X17. For a predicted value below zero the ten projected values never
    decrease with k and none of them is above zero: the projection of a
    negative value rises towards zero. *)
Theorem projection_of_negative_value_never_falls
    (Hneg : predicted_value data < 0) :
  exists pts,
    chartData currentYear data = Ok pts
    /\ (forall i j p q, (i < j)%nat -> pts !! i = Some p -> pts !! j = Some q ->
          predictedValue p <= predictedValue q)
    /\ (forall k p, pts !! k = Some p -> predictedValue p <= 0).
Proof.
  destruct (chartData_ok currentYear data) as (pts & Hpts & _ & Hat).
  exists pts. split; [exact Hpts|].
  apply Qlt_le_weak in Hneg.
  assert (Hbelow : forall k, predicted_value data * (85 # 100) ^ Z.of_nat k <= 0).
  { intros k. destruct (scale_towards_zero (predicted_value data) 0 k) as [_ Hdown]; [lia|].
    apply Hdown. change ((85 # 100) ^ Z.of_nat 0) with 1. now rewrite Qmult_1_r. }
  split.
  - intros i j p q Hij Hp Hq.
    apply Hat in Hp, Hq. rewrite chartPoint_ok in Hp, Hq.
    injection Hp as <-. injection Hq as <-. cbn [predictedValue].
    destruct (scale_towards_zero (predicted_value data) i j) as [_ Hdown]; [lia|].
    apply Hdown, Hbelow.
  - intros k p Hp. apply Hat in Hp. rewrite chartPoint_ok in Hp.
    injection Hp as <-. cbn [predictedValue]. apply Hbelow.
Qed.

End ProjectionShape.

(** The Camry valuation lies in its price range. *)
Lemma projection_keeps_prediction_in_range_witness :
  Chart.price_range Samples.camryData
  = Some {| Chart.low := 16000; Chart.high := 19500 |}
  /\ (16000 <= Chart.predicted_value Samples.camryData)%Q
  /\ (Chart.predicted_value Samples.camryData <= 19500)%Q
  /\ exists pts,
      Chart.chartData 2026 Samples.camryData = Chart.Ok pts
      /\ forall k pt, pts !! k = Some pt ->
           exists l h, Chart.lowRange pt = Some l /\ Chart.highRange pt = Some h
                       /\ (l <= Chart.predictedValue pt)%Q
                       /\ (Chart.predictedValue pt <= h)%Q.
Proof.
  assert (Hlow : (16000 <= Chart.predicted_value Samples.camryData)%Q) by discriminate.
  assert (Hhigh : (Chart.predicted_value Samples.camryData <= 19500)%Q) by discriminate.
  split; [reflexivity|]. split; [exact Hlow|]. split; [exact Hhigh|].
  exact (projection_keeps_prediction_in_range 2026 Samples.camryData
           {| Chart.low := 16000; Chart.high := 19500 |} eq_refl Hlow Hhigh).
Defined.

(** The valuation of -500. *)
Lemma projection_of_negative_value_never_falls_witness :
  (Chart.predicted_value Cases.debtData < 0)%Q
  /\ exists pts,
      Chart.chartData 2026 Cases.debtData = Chart.Ok pts
      /\ (forall i j p q, (i < j)%nat -> pts !! i = Some p -> pts !! j = Some q ->
            (Chart.predictedValue p <= Chart.predictedValue q)%Q)
      /\ (forall k p, pts !! k = Some p -> (Chart.predictedValue p <= 0)%Q).
Proof.
  split; [reflexivity|].
  apply (projection_of_negative_value_never_falls 2026 Cases.debtData). reflexivity.
Defined.

(** ** What is drawn *)

Section Drawn.
Import JS Chart.

(** X18. The component never fails. Without data it returns the
    placeholder, loading or not. With data it returns the chart with the
    overlay exactly while loading, ten points, the predicted-value series
    first, the two range series together or not at all, according to the
    presence of the price range, and four rows of breakdown plus one for
    the price range and one for a non-empty confidence. *)
Theorem chart_view_structure (currentYear : Z) (isLoading : bool) :
  PredictionChart currentYear None isLoading
  = Ok (Placeholder "Enter car details to see value prediction")
  /\ forall data, exists title pts lines breakdown,
       PredictionChart currentYear (Some data) isLoading
       = Ok (ChartView isLoading title pts lines breakdown)
       /\ List.length pts = 10%nat
       /\ List.head lines = Some predictedLine
       /\ (List.In lowLine lines <-> price_range data <> None)
       /\ (List.In highLine lines <-> price_range data <> None)
       /\ (List.In meanLine lines <-> truthy_num (mean_value data) = true)
       /\ List.length breakdown
          = (4 + (if truthy_obj (price_range data) then 1 else 0)
               + (if truthy_str (confidence data) then 1 else 0))%nat.
Proof.
  split; [reflexivity|]. intros data.
  destruct (PredictionChart_lines currentYear data isLoading)
    as (title & pts & breakdown & Hview & Hpts & Hb).
  destruct (chartData_ok currentYear data) as (pts' & Hpts' & Hlen & _).
  rewrite Hpts in Hpts'. injection Hpts' as <-.
  exists title, pts, (seriesLines data), breakdown.
  split; [exact Hview|]. split; [exact Hlen|]. split; [reflexivity|].
  assert (Hlines : forall l : Line,
            l <> predictedLine ->
            (List.In l (seriesLines data) <->
             (l = meanLine /\ truthy_num (mean_value data) = true)
             \/ ((l = lowLine \/ l = highLine) /\ price_range data <> None))).
  { intros l Hl. unfold seriesLines, predictedLine, meanLine, lowLine, highLine in *.
    destruct (truthy_num (mean_value data)), (price_range data) as [r|];
      cbn [truthy_obj app List.In]; intuition congruence. }
  split; [|split; [|split]].
  - rewrite Hlines by discriminate. intuition discriminate.
  - rewrite Hlines by discriminate. intuition discriminate.
  - rewrite Hlines by discriminate. intuition discriminate.
  - unfold breakdownText in Hb.
    destruct (price_range data) as [r|], (confidence data) as [c|];
      cbn [truthy_obj truthy_str bind prop] in *;
      try destruct (truthy_string c); cbn [bind] in Hb;
      injection Hb as <-; reflexivity.
Qed.

End Drawn.

Section ChartArea.
Import Form.

(** X19. The page shows nothing in the place of the chart while there is
    neither a valuation nor a request under way; it shows the placeholder
    exactly while a request is under way and no valuation has arrived
    yet; with a valuation it shows the chart, under the overlay while a
    request is under way. *)
Theorem chart_area_cases (currentYear : Z) (st : State) :
  (Page.chartArea currentYear st = None
   <-> predictionData st = None /\ loading st = false)
  /\ (Page.chartArea currentYear st
      = Some (Chart.Ok (Chart.Placeholder "Enter car details to see value prediction"))
      <-> predictionData st = None /\ loading st = true)
  /\ (forall data, predictionData st = Some data ->
        exists title pts lines breakdown,
          Page.chartArea currentYear st
          = Some (Chart.Ok (Chart.ChartView (loading st) title pts lines breakdown))).
Proof.
  unfold Page.chartArea.
  split; [|split].
  - destruct (predictionData st), (loading st); cbn; intuition congruence.
  - destruct (predictionData st) as [data|] eqn:Hd, (loading st);
      cbn [Chart.truthy_obj orb].
    + destruct (PredictionChart_lines currentYear data true) as (t & p & b & -> & _).
      intuition congruence.
    + destruct (PredictionChart_lines currentYear data false) as (t & p & b & -> & _).
      intuition congruence.
    + cbn [Chart.PredictionChart]. intuition congruence.
    + intuition congruence.
  - intros data ->. cbn [Chart.truthy_obj orb].
    destruct (PredictionChart_lines currentYear data (loading st)) as (t & p & b & -> & _).
    eauto.
Qed.

(** X20. After a submission, whatever the endpoint answers, no overlay
    is left: the page shows the chart of the valuation it then holds,
    or nothing when it holds none. After a failed submission that is the
    chart that was there before, and the message of the failure is
    shown. *)
Theorem chart_area_after_submission (currentYear : Z) (E : env) (st : State) :
  let st' := snd (run E (handleSubmit st)) in
  Page.chartArea currentYear st'
  = match predictionData st' with
    | Some data => Some (Chart.PredictionChart currentYear (Some data) false)
    | None => None
    end
  /\ (E _ (PostPredict (formData st)) = Rejected ->
      predictionData st' = predictionData st
      /\ Page.errorShown st' = Some "Failed to get prediction. Please try again.").
Proof.
  unfold handleSubmit, bind, finally, try_catch, getFormData, setLoading, setError.
  cbn [async_bind run formData fst snd].
  destruct (formData st !! "year"); cbn [async_bind run ret throw].
  - unfold ret, await. cbn [async_bind run].
    destruct (E _ (PostPredict (formData st))) as [data|]; cbn.
    + split; [reflexivity|discriminate].
    + unfold Page.chartArea. cbn. destruct (predictionData st); cbn; auto.
  - cbn. unfold Page.chartArea. cbn. destruct (predictionData st); cbn; auto.
Qed.

End ChartArea.

(** ** The vertical axis *)

Section AxisFacts.
Open Scope Q_scope.

(** X21. For values that are not negative the domain of the vertical
    axis contains them: its lower end is an integer between 0 and the
    least value, its upper end an integer not below the greatest value. *)
Theorem axis_domain_contains_the_data (dataMin dataMax : Q)
    (Hmin : 0 <= dataMin) (Hmax : dataMin <= dataMax) :
  (0 <= Axis.domainMin dataMin)%Z
  /\ inject_Z (Axis.domainMin dataMin) <= dataMin
  /\ dataMax <= inject_Z (Axis.domainMax dataMax).
Proof.
  unfold Axis.domainMin, Axis.domainMax.
  assert (Hmax0 : 0 <= dataMax) by (eapply Qle_trans; eassumption).
  split; [|split].
  - change 0%Z with (Qfloor 0). apply Qfloor_resp_le.
    apply Qmult_le_0_compat; [exact Hmin|discriminate].
  - eapply Qle_trans; [apply Qfloor_le|].
    rewrite Qmult_comm. rewrite <- (Qmult_1_l dataMin) at 2.
    apply Qmult_le_compat_r; [discriminate|exact Hmin].
  - eapply Qle_trans; [|apply Qle_ceiling].
    rewrite Qmult_comm. rewrite <- (Qmult_1_l dataMax) at 1.
    apply Qmult_le_compat_r; [discriminate|exact Hmax0].
Qed.

End AxisFacts.

(** ** The body of the valuation request *)

Section RequestBody.
Import JS Form Body.

Lemma parse_digits_acc (d : Decimal.uint) (acc : positive) :
  parse_digits 10 (Some (Zpos acc)) (NilEmpty.string_of_uint d)
  = Some (Zpos (Pos.of_uint_acc d acc)).
Proof.
  revert acc. induction d as [|d IH|d IH|d IH|d IH|d IH|d IH|d IH|d IH|d IH|d IH];
    intros acc; [reflexivity|..];
    cbn [NilEmpty.string_of_uint parse_digits Pos.of_uint_acc];
    match goal with
    | |- context [digit_value 10 ?c] =>
        let v := eval vm_compute in (digit_value 10 c) in
        change (digit_value 10 c) with v
    end;
    cbv iota beta; rewrite <- IH; do 2 f_equal; lia.
Qed.

Lemma parse_digits_zero (d : Decimal.uint) :
  parse_digits 10 (Some 0) (NilEmpty.string_of_uint d) = Some (Z.of_N (Pos.of_uint d)).
Proof.
  induction d as [|d IH|d IH|d IH|d IH|d IH|d IH|d IH|d IH|d IH|d IH];
    [reflexivity|..];
    cbn [NilEmpty.string_of_uint parse_digits Pos.of_uint];
    match goal with
    | |- context [digit_value 10 ?c] =>
        let v := eval vm_compute in (digit_value 10 c) in
        change (digit_value 10 c) with v
    end;
    cbv iota beta; [exact IH|..]; cbn [Z.of_N];
    rewrite <- parse_digits_acc; reflexivity.
Qed.

Lemma parseInt_decimal (d : Decimal.uint) :
  d <> Decimal.Nil ->
  parseInt (NilEmpty.string_of_uint d) = Some (Z.of_N (Pos.of_uint d))
  /\ parseInt (String "-" (NilEmpty.string_of_uint d)) = Some (- Z.of_N (Pos.of_uint d)).
Proof.
  intros Hd.
  assert (Hcore : forall sign,
    option_map (Z.mul sign) (parse_digits 10 None (NilEmpty.string_of_uint d))
    = Some (sign * Z.of_N (Pos.of_uint d))).
  { intros sign.
    change (Some (sign * Z.of_N (Pos.of_uint d)))
      with (option_map (Z.mul sign) (Some (Z.of_N (Pos.of_uint d)))).
    rewrite <- (parse_digits_zero d).
    destruct d; [contradiction|..]; reflexivity. }
  split.
  - rewrite <- (Z.mul_1_l (Z.of_N (Pos.of_uint d))), <- Hcore.
    destruct d as [|d|d|d|d|d|d|d|d|d|d]; [contradiction|..]; try reflexivity.
    destruct d; reflexivity.
  - replace (- Z.of_N (Pos.of_uint d)) with (-1 * Z.of_N (Pos.of_uint d)) by lia.
    rewrite <- Hcore.
    destruct d as [|d|d|d|d|d|d|d|d|d|d]; [contradiction|..]; try reflexivity.
    destruct d; reflexivity.
Qed.

Lemma to_uint_nonnil (m : N) : N.to_uint m <> Decimal.Nil.
Proof.
  destruct m as [|p]; [discriminate|]. apply DecimalPos.Unsigned.to_uint_nonnil.
Qed.

Lemma digits_decimal (m : Z) :
  digits m = NilEmpty.string_of_uint (N.to_uint (Z.to_N m)).
Proof.
  unfold digits, NilZero.string_of_uint.
  pose proof (to_uint_nonnil (Z.to_N m)) as H.
  destruct (N.to_uint (Z.to_N m)); [contradiction|..]; reflexivity.
Qed.

(** [parseInt] reads back the decimal text of an integer. *)
Lemma parseInt_toString (n : Z) : parseInt (toString (Some (VNum n))) = Some n.
Proof.
  unfold toString. rewrite digits_decimal.
  destruct (parseInt_decimal _ (to_uint_nonnil (Z.to_N (Z.abs n)))) as [Hpos Hneg].
  pose proof (DecimalN.Unsigned.of_to (Z.to_N (Z.abs n))) as Hback.
  unfold N.of_uint in Hback.
  destruct (n <? 0) eqn:Hn.
  - apply Z.ltb_lt in Hn. change ("-" ++ ?s) with (String "-" s).
    rewrite Hneg, Hback. f_equal. lia.
  - apply Z.ltb_ge in Hn. change ("" ++ ?s) with s.
    rewrite Hpos, Hback. f_equal. lia.
Qed.

Lemma parseInt_digits (n : Z) : 0 <= n -> parseInt (digits n) = Some n.
Proof.
  intros Hn. rewrite digits_decimal.
  destruct (parseInt_decimal _ (to_uint_nonnil (Z.to_N n))) as [Hpos _].
  pose proof (DecimalN.Unsigned.of_to (Z.to_N n)) as Hback.
  unfold N.of_uint in Hback. rewrite Hpos, Hback. f_equal. lia.
Qed.

(** X22. The body of the valuation request carries the year as the
    integer the form holds (one in the range where a number holds
    integers exactly), whether the form holds it as a number or as its
    decimal text; it carries the mileage as [null] when the mileage
    of the form is empty and as the number read from its text otherwise;
    every other property of the form is carried over unchanged. *)
Theorem request_body_year_and_mileage (fd : gmap string value) (n : Z)
    (Hsafe : Z.abs n < 2 ^ 53)
    (Hyear : fd !! "year" = Some (VNum n)
             \/ (0 <= n /\ fd !! "year" = Some (VStr (digits n)))) :
  exists body,
    predictBody fd = Some body
    /\ body !! "year" = Some (JInt n)
    /\ body !! "mileage"
       = Some (if truthy (fd !! "mileage")
               then JFloatOf (toString (fd !! "mileage")) else JNull)
    /\ forall k, k <> "year" -> k <> "mileage" -> body !! k = of_value <$> fd !! k.
Proof.
  assert (Hparse : exists y, fd !! "year" = Some y /\ parseInt (toString (Some y)) = Some n).
  { destruct Hyear as [Hy|[Hn Hy]]; eexists; (split; [exact Hy|]).
    - apply parseInt_toString.
    - cbn [toString]. now apply parseInt_digits. }
  destruct Hparse as (y & Hy & Hp).
  eexists. split.
  { unfold predictBody. rewrite Hy, Hp. reflexivity. }
  split; [by simplify_map_eq|]. split; [by simplify_map_eq|].
  intros k Hk1 Hk2. rewrite !lookup_insert_ne by congruence. apply lookup_fmap.
Qed.

End RequestBody.

(** The Camry form: the year 2026 and no mileage. *)
Lemma request_body_year_and_mileage_witness :
  Z.abs 2026 < 2 ^ 53
  /\ Form.formData Samples.camryForm !! "year" = Some (Form.VNum 2026)
  /\ exists body,
      Body.predictBody (Form.formData Samples.camryForm) = Some body
      /\ body !! "year" = Some (Body.JInt 2026)
      /\ body !! "mileage" = Some Body.JNull
      /\ body !! "make" = Some (Body.JString "Toyota").
Proof.
  assert (Hsafe : Z.abs 2026 < 2 ^ 53) by reflexivity.
  destruct (request_body_year_and_mileage (Form.formData Samples.camryForm) 2026
              Hsafe (or_introl eq_refl)) as (body & Hb & Hy & Hm & Hk).
  split; [exact Hsafe|]. split; [reflexivity|].
  exists body. split; [exact Hb|]. split; [exact Hy|]. split; [exact Hm|].
  rewrite Hk by discriminate. reflexivity.
Defined.

(** The least value 4892 and the greatest 19500. *)
Lemma axis_domain_contains_the_data_witness :
  (0 <= 4892)%Q /\ (4892 <= 19500)%Q
  /\ (0 <= Axis.domainMin 4892)%Z
  /\ (inject_Z (Axis.domainMin 4892) <= 4892)%Q
  /\ (19500 <= inject_Z (Axis.domainMax 19500))%Q.
Proof.
  assert (Hmin : (0 <= 4892)%Q) by discriminate.
  assert (Hmax : (4892 <= 19500)%Q) by discriminate.
  split; [exact Hmin|]. split; [exact Hmax|].
  exact (axis_domain_contains_the_data 4892 19500 Hmin Hmax).
Defined.

(** ** From an empty form to a form that can be submitted *)

Section Selection.
Import Form.

(** X23. Choosing a make and then a model, both not empty, in a year
    other than 0 and while no submission is under way, enables the submit
    button, whatever the form held before. *)
Theorem make_then_model_enables_submit
    (currentYear : Z) (make model : value) (st : State)
    (Hmake : truthy (Some make) = true)
    (Hmodel : truthy (Some model) = true)
    (Hyear : currentYear <> 0)
    (Hidle : loading st = false) :
  exists st1 st2,
    handleChange currentYear "make" make st = Done (Normal tt, st1)
    /\ handleChange currentYear "model" model st1 = Done (Normal tt, st2)
    /\ formData st2 !! "make" = Some make
    /\ formData st2 !! "model" = Some model
    /\ Page.submitDisabled st2 = false.
Proof.
  destruct (handleChange_done currentYear "make" make st)
    as (st1 & Hrun1 & Hfd1 & _ & _ & _ & _ & _).
  destruct (handleChange_done currentYear "model" model st1)
    as (st2 & Hrun2 & Hfd2 & _ & _ & _ & _ & _).
  exists st1, st2. split; [exact Hrun1|]. split; [exact Hrun2|].
  assert (Hmk : formData st2 !! "make" = Some make).
  { rewrite Hfd2, newFormData_model, Hfd1, newFormData_make. by simplify_map_eq. }
  assert (Hmd : formData st2 !! "model" = Some model).
  { rewrite Hfd2, newFormData_model. by simplify_map_eq. }
  assert (Hyr : formData st2 !! "year" = Some (VNum currentYear)).
  { rewrite Hfd2, newFormData_model. by simplify_map_eq. }
  assert (Hld : loading st2 = false).
  { unfold handleChange, setFormData in Hrun1, Hrun2.
    injection Hrun1 as <-. injection Hrun2 as <-. exact Hidle. }
  split; [exact Hmk|]. split; [exact Hmd|].
  unfold Page.submitDisabled. rewrite Hmk, Hmd, Hyr, Hld, Hmake, Hmodel.
  cbn [truthy negb orb]. apply Z.eqb_neq in Hyear. now rewrite Hyear.
Qed.

End Selection.

(** Toyota, then Camry, on the Honda form in 2026. *)
Lemma make_then_model_enables_submit_witness :
  Form.truthy (Some (Form.VStr "Toyota")) = true
  /\ Form.truthy (Some (Form.VStr "Camry")) = true
  /\ 2026 <> 0
  /\ Form.loading Cases.hondaForm = false
  /\ exists st1 st2,
      Form.handleChange 2026 "make" (Form.VStr "Toyota") Cases.hondaForm
      = Form.Done (Form.Normal tt, st1)
      /\ Form.handleChange 2026 "model" (Form.VStr "Camry") st1
         = Form.Done (Form.Normal tt, st2)
      /\ Form.formData st2 !! "make" = Some (Form.VStr "Toyota")
      /\ Form.formData st2 !! "model" = Some (Form.VStr "Camry")
      /\ Page.submitDisabled st2 = false.
Proof.
  assert (Hy : 2026 <> 0) by discriminate.
  split; [reflexivity|]. split; [reflexivity|]. split; [exact Hy|]. split; [reflexivity|].
  exact (make_then_model_enables_submit 2026 (Form.VStr "Toyota") (Form.VStr "Camry")
           Cases.hondaForm eq_refl eq_refl Hy eq_refl).
Defined.
